(** * Augmenter recipes of TextAttack (DetectRL's Data_Generation copy)

    A shallow embedding of
    [Data_Generation/TextAttack/textattack/augmentation/recipes.py]:
    the catalog of preconfigured augmentation recipes, the aggregate
    [EasyDataAugmenter] with its [augment] method, and the parts of the
    [Augmenter] base class the recipes rely on. *)

From Stdlib Require Import ZArith QArith Lia Ascii.
From stdpp Require Import base list strings gmap.

Local Open Scope Z_scope.
#[local] Set Warnings "-register-all".

(** ** Python values *)

Module Py.

(** A Python [float] as far as comparisons see it: a finite value is a
    rational (so [-0.0] and [0.0] are the same value, and a decimal
    literal of the source is taken at face value), and the three special
    values are kept apart. *)
Inductive float : Type :=
| Finite (q : Q)
| Infinity (negative : bool)
| NaN.

(** [a <= b] on floats: false as soon as one side is a NaN. *)
Definition float_le (a b : float) : bool :=
  match a, b with
  | NaN, _ | _, NaN => false
  | Finite x, Finite y => Qle_bool x y
  | Infinity true, _ => true
  | _, Infinity false => true
  | Infinity false, _ => false
  | Finite _, Infinity true => false
  end.

(** The exceptions the recipes can meet. *)
Inductive exn : Type :=
| AssertionError (msg : string)
| IndexError (msg : string)
| OSError (msg : string).

(** The outcome of a call: a value or a raised exception. *)
Inductive result (A : Type) : Type :=
| Ok (a : A)
| Raise (e : exn).
Arguments Ok {A} a.
Arguments Raise {A} e.

Definition bind {A B} (r : result A) (k : A -> result B) : result B :=
  match r with
  | Ok a => k a
  | Raise e => Raise e
  end.

(** [assert cond, msg] *)
Definition assert (cond : bool) (msg : string) : result unit :=
  if cond then Ok tt else Raise (AssertionError msg).

Definition is_Ok {A} (r : result A) : bool :=
  match r with Ok _ => true | Raise _ => false end.

(** [l[i]] for a non-negative index. *)
Definition getitem {A} (l : list A) (i : nat) : result A :=
  match l !! i with
  | Some a => Ok a
  | None => Raise (IndexError "list index out of range")
  end.

(** [l[:n]] on a list. *)
Definition slice_to {A} (l : list A) (n : Z) : list A :=
  if 0 <=? n then take (Z.to_nat n) l
  else take (length l - Z.to_nat (- n)) l.

End Py.

(** Sequencing of calls that may raise, in stdpp's notation
    [x ← c; k] and [c;; k]. *)
#[export] Instance result_bind : MBind Py.result := fun A B k r => Py.bind r k.
#[export] Instance result_ret : MRet Py.result := fun A a => Py.Ok a.
#[export] Instance result_fmap : FMap Py.result :=
  fun A B f r => Py.bind r (fun a => Py.Ok (f a)).

(** ** The process-wide random source and the order of a set

    [augment] runs against two pieces of interpreter state that the file
    does not own: the generator behind the [random] module, and the
    order in which a [set] of strings is iterated. *)

Module Random.

(** The generator of the [random] module: a state, [random.seed], and
    [_randbelow(n)], which returns an integer below [n] and the next
    state. *)
Record source : Type := {
  state : Type;
  seed : Z -> state;
  randbelow : state -> nat -> nat * state;
  randbelow_lt : forall s n, (0 < n)%nat -> ((randbelow s n).1 < n)%nat
}.

Section Shuffle.
Context (R : source) {A : Type}.

(** [x[i], x[j] = x[j], x[i]] *)
Definition swap (x : list A) (i j : nat) : list A :=
  match x !! i, x !! j with
  | Some a, Some b => <[j:=a]> (<[i:=b]> x)
  | _, _ => x
  end.

(** The loop of [random.shuffle]:
    [for i in reversed(range(1, len(x))): j = randbelow(i + 1); swap]. *)
Fixpoint shuffle_from (i : nat) (x : list A) (s : state R) : list A * state R :=
  match i with
  | O => (x, s)
  | S i' =>
      let '(j, s') := randbelow R s (S i) in
      shuffle_from i' (swap x i j) s'
  end.

Definition shuffle (x : list A) (s : state R) : list A * state R :=
  shuffle_from (length x - 1)%nat x s.
End Shuffle.

End Random.

Module PySet.

(** [list(set(l))]: the distinct elements of [l], in an order the
    interpreter chooses (for strings it follows their hashes, which are
    salted per process and which [random.seed] does not touch). *)
Record order : Type := {
  to_list : list string -> list string;
  to_list_NoDup : forall l, NoDup (to_list l);
  to_list_elem : forall l x, x ∈ to_list l <-> x ∈ l
}.

End PySet.

(** A call at augmentation time: it reads and advances the generator and
    returns or raises. *)
Definition Run (S A : Type) : Type := S -> Py.result A * S.

#[export] Instance run_ret {S} : MRet (Run S) := fun A a s => (Py.Ok a, s).
#[export] Instance run_bind {S} : MBind (Run S) := fun A B k m s =>
  match m s with
  | (Py.Ok a, s') => k a s'
  | (Py.Raise e, s') => (Py.Raise e, s')
  end.

(** [random.shuffle(x)], which cannot raise. *)
Definition random_shuffle (R : Random.source) (x : list string)
  : Run (Random.state R) (list string) :=
  fun s => let '(x', s') := Random.shuffle R x s in (Py.Ok x', s').

(** ** Transformations and constraints

    The recipes only build these objects; each constructor call of the
    source is a term that records the class and the arguments it was
    given.  A keyword the source leaves out is [None]. *)

(** Keyword arguments shared by the character-level word swaps. *)
Record char_opts : Type := CharOpts {
  random_one : option bool;
  skip_first_char : option bool;
  skip_last_char : option bool
}.

Definition no_opts : char_opts := CharOpts None None None.

(** What [transformers.*.from_pretrained] hands back. *)
Record pretrained : Type := Pretrained { loaded_from : string }.

Inductive transformation : Type :=
| WordInnerSwapRandom
| WordInsertionRandomSynonym
| WordSwapWordNet
| WordDeletion
| WordSwapEmbedding (max_candidates : Z)
| WordSwapNeighboringCharacterSwap (o : char_opts)
| WordSwapRandomCharacterSubstitution (o : char_opts)
| WordSwapRandomCharacterDeletion (o : char_opts)
| WordSwapRandomCharacterInsertion (o : char_opts) (letters_to_insert : option string)
| WordSwapQWERTY (o : char_opts)
| WordSwapHomoglyphSwap
| WordSwapChangeNumber
| WordSwapChangeLocation
| WordSwapChangeName
| WordSwapExtend
| WordSwapContract
| WordSwapMaskedLM (method : string) (masked_language_model tokenizer : pretrained)
                   (max_candidates : Z) (min_confidence : Py.float)
| WordInsertionMaskedLM (masked_language_model tokenizer : pretrained)
                        (max_candidates : Z) (min_confidence : Py.float)
| WordMergeMaskedLM (masked_language_model tokenizer : pretrained)
                    (max_candidates : Z) (min_confidence : Py.float)
| BackTranslation (chained_back_translation : Z)
| CompositeTransformation (transformations : list transformation).

(** Keyword arguments of [UniversalSentenceEncoder]. *)
Record use_opts : Type := UseOpts {
  metric : option string;
  compare_against_original : option bool;
  window_size : option Z;
  skip_text_shorter_than_window : option bool
}.

Inductive constraint : Type :=
| RepeatModification
| StopwordModification (stopwords : option (list string))
| MinWordLength (min_length : Z)
| InputColumnModification (matching_column_labels columns_to_ignore : list string)
| WordEmbeddingDistance (min_cos_sim : Py.float)
| UniversalSentenceEncoder (threshold : Py.float) (o : use_opts)
| PartOfSpeech (allow_verb_noun_swap : bool)
| MaxWordsPerturbed (max_num_words : Z)
| LevenshteinEditDistance (max_edit_distance : Z).

(** The classes imported from [textattack.constraints.pre_transformation]
    restrict the word positions a transformation may touch; the others
    judge a finished candidate. *)
Definition is_pre_transformation (c : constraint) : bool :=
  match c with
  | RepeatModification | StopwordModification _
  | MinWordLength _ | InputColumnModification _ _ => true
  | _ => false
  end.

Definition is_repeat_modification (c : constraint) : bool :=
  match c with RepeatModification => true | _ => false end.

Definition is_stopword_modification (c : constraint) : bool :=
  match c with StopwordModification _ => true | _ => false end.

(** [DEFAULT_CONSTRAINTS = [RepeatModification(), StopwordModification()]] *)
Definition DEFAULT_CONSTRAINTS : list constraint :=
  [RepeatModification; StopwordModification None].

(** ** What the recipes receive from outside this file *)

(** [**kwargs] of a recipe constructor: the two overrides the [Augmenter]
    understands, each possibly absent ([EasyDataAugmenter] names the
    same two as parameters with defaults of its own). *)
Record kwargs : Type := Kwargs {
  kw_pct_words_to_swap : option Py.float;
  kw_transformations_per_example : option Z
}.

(** The surroundings of a constructor call: the defaults of the
    [Augmenter] base class for the two overrides, and the outcome of
    loading a pretrained model or tokenizer by name. *)
Record Env : Type := {
  Augmenter_default_pct : Py.float;
  Augmenter_default_tpe : Z;
  AutoModelForCausalLM_from_pretrained : string -> Py.result pretrained;
  AutoTokenizer_from_pretrained : string -> Py.result pretrained
}.

(** ** The Augmenter base class *)

Record Augmenter : Type := {
  transformation_of : transformation;
  constraints_of : list constraint;
  pct_words_to_swap : Py.float;
  transformations_per_example : Z
}.

(** [0.0 <= pct_words_to_swap <= 1.0] *)
Definition pct_in_range (p : Py.float) : bool :=
  Py.float_le (Py.Finite 0) p && Py.float_le p (Py.Finite 1).

Definition pct_msg : string := "pct_words_to_swap must be in [0., 1.]".
Definition tpe_msg : string := "transformations_per_example must be a positive integer".

(** Modelled from the spec: the constructor of the [Augmenter] base class
    ([from . import Augmenter]) is not among the sources.  It takes
    (transformation, constraints, pct_words_to_swap,
    transformations_per_example); a fraction outside [0,1] and a
    non-positive output count are rejected at once as configuration
    errors; a constraint list that is not passed is the empty chain. *)
Definition Augmenter_init (env : Env) (transformation : transformation)
    (constraints : option (list constraint)) (kw : kwargs) : Py.result Augmenter :=
  let pct := default (Augmenter_default_pct env) (kw_pct_words_to_swap kw) in
  let tpe := default (Augmenter_default_tpe env) (kw_transformations_per_example kw) in
  Py.assert (pct_in_range pct) pct_msg;;
  Py.assert (tpe >? 0) tpe_msg;;
  mret {| transformation_of := transformation;
           constraints_of := default [] constraints;
           pct_words_to_swap := pct;
           transformations_per_example := tpe |}.

(** ** The recipes

    One module per class of the source; [init] is its [__init__]. *)

Module SwapAugmenter.
Definition init (env : Env) (kw : kwargs) : Py.result Augmenter :=
  let transformation := WordInnerSwapRandom in
  Augmenter_init env transformation (Some DEFAULT_CONSTRAINTS) kw.
End SwapAugmenter.

Module SynonymInsertionAugmenter.
Definition init (env : Env) (kw : kwargs) : Py.result Augmenter :=
  let transformation := WordInsertionRandomSynonym in
  Augmenter_init env transformation (Some DEFAULT_CONSTRAINTS) kw.
End SynonymInsertionAugmenter.

Module WordNetAugmenter.
Definition init (env : Env) (kw : kwargs) : Py.result Augmenter :=
  let transformation := WordSwapWordNet in
  Augmenter_init env transformation (Some DEFAULT_CONSTRAINTS) kw.
End WordNetAugmenter.

Module DeletionAugmenter.
Definition init (env : Env) (kw : kwargs) : Py.result Augmenter :=
  let transformation := WordDeletion in
  Augmenter_init env transformation (Some DEFAULT_CONSTRAINTS) kw.
End DeletionAugmenter.

Module EmbeddingAugmenter.
Definition init (env : Env) (kw : kwargs) : Py.result Augmenter :=
  let transformation := WordSwapEmbedding 50 in
  let constraints :=
    DEFAULT_CONSTRAINTS ++ [WordEmbeddingDistance (Py.Finite (8 # 10))] in
  Augmenter_init env transformation (Some constraints) kw.
End EmbeddingAugmenter.

Module CharSwapAugmenter.
Definition init (env : Env) (kw : kwargs) : Py.result Augmenter :=
  let transformation :=
    CompositeTransformation
      [ WordSwapNeighboringCharacterSwap no_opts;
        WordSwapRandomCharacterSubstitution no_opts;
        WordSwapRandomCharacterDeletion no_opts;
        WordSwapRandomCharacterInsertion no_opts None ] in
  Augmenter_init env transformation (Some DEFAULT_CONSTRAINTS) kw.
End CharSwapAugmenter.

Module CheckListAugmenter.
Definition init (env : Env) (kw : kwargs) : Py.result Augmenter :=
  let transformation :=
    CompositeTransformation
      [ WordSwapChangeNumber;
        WordSwapChangeLocation;
        WordSwapChangeName;
        WordSwapExtend;
        WordSwapContract ] in
  first ← Py.getitem DEFAULT_CONSTRAINTS 0;
  let constraints := [first] in
  Augmenter_init env transformation (Some constraints) kw.
End CheckListAugmenter.

Module CLAREAugmenter.
Definition default_model : string := "distilroberta-base".
Definition default_tokenizer : string := "distilroberta-base".

Definition init (env : Env) (model tokenizer : option string) (kw : kwargs)
  : Py.result Augmenter :=
  let model := default default_model model in
  let tokenizer := default default_tokenizer tokenizer in
  shared_masked_lm ← AutoModelForCausalLM_from_pretrained env model;
  shared_tokenizer ← AutoTokenizer_from_pretrained env tokenizer;
  let transformation :=
    CompositeTransformation
      [ WordSwapMaskedLM "bae" shared_masked_lm shared_tokenizer 50
          (Py.Finite (5 # 10000));
        WordInsertionMaskedLM shared_masked_lm shared_tokenizer 50
          (Py.Finite 0);
        WordMergeMaskedLM shared_masked_lm shared_tokenizer 50
          (Py.Finite (5 # 1000)) ] in
  let use_constraint :=
    UniversalSentenceEncoder (Py.Finite (7 # 10))
      (UseOpts (Some "cosine") (Some true) (Some 15) (Some true)) in
  let constraints := DEFAULT_CONSTRAINTS ++ [use_constraint] in
  Augmenter_init env transformation (Some constraints) kw.
End CLAREAugmenter.

Module PruthiAugmenter.
Definition default_max_num_word_swaps : Z := 1.

Definition inner : char_opts := CharOpts (Some false) (Some true) (Some true).

Definition init (env : Env) (max_num_word_swaps : option Z) (kw : kwargs)
  : Py.result Augmenter :=
  let max_num_word_swaps := default default_max_num_word_swaps max_num_word_swaps in
  let transformation :=
    CompositeTransformation
      [ WordSwapNeighboringCharacterSwap inner;
        WordSwapRandomCharacterDeletion inner;
        WordSwapRandomCharacterInsertion inner None;
        WordSwapQWERTY inner ] in
  let constraints :=
    [ MinWordLength 4;
      StopwordModification None;
      MaxWordsPerturbed max_num_word_swaps;
      RepeatModification ] in
  Augmenter_init env transformation (Some constraints) kw.
End PruthiAugmenter.

Module TextBuggerAugmenter.
Definition inner_one : char_opts := CharOpts (Some true) (Some true) (Some true).

Definition init (env : Env) (kw : kwargs) : Py.result Augmenter :=
  let transformation :=
    CompositeTransformation
      [ WordSwapRandomCharacterInsertion inner_one (Some " ");
        WordSwapRandomCharacterDeletion inner_one;
        WordSwapNeighboringCharacterSwap inner_one;
        WordSwapHomoglyphSwap;
        WordSwapEmbedding 5 ] in
  let use_constraint :=
    UniversalSentenceEncoder (Py.Finite (8 # 10)) (UseOpts None None None None) in
  let constraints := DEFAULT_CONSTRAINTS ++ [use_constraint] in
  Augmenter_init env transformation (Some constraints) kw.
End TextBuggerAugmenter.

Module TextFoolerAugmenter.
(** The stopwords of the TextFooler public implementation; the source
    passes them as a [set]. *)
Definition stopwords : list string :=
  ["a"; "about"; "above"; "across"; "after"; "afterwards"; "again"; "against"; "ain"; "all"; "almost";
   "alone"; "along"; "already"; "also"; "although"; "am"; "among"; "amongst"; "an"; "and"; "another"; "any";
   "anyhow"; "anyone"; "anything"; "anyway"; "anywhere"; "are"; "aren"; "aren't"; "around"; "as"; "at";
   "back"; "been"; "before"; "beforehand"; "behind"; "being"; "below"; "beside"; "besides"; "between";
   "beyond"; "both"; "but"; "by"; "can"; "cannot"; "could"; "couldn"; "couldn't"; "d"; "didn"; "didn't";
   "doesn"; "doesn't"; "don"; "don't"; "down"; "due"; "during"; "either"; "else"; "elsewhere"; "empty";
   "enough"; "even"; "ever"; "everyone"; "everything"; "everywhere"; "except"; "first"; "for"; "former";
   "formerly"; "from"; "hadn"; "hadn't"; "hasn"; "hasn't"; "haven"; "haven't"; "he"; "hence"; "her"; "here";
   "hereafter"; "hereby"; "herein"; "hereupon"; "hers"; "herself"; "him"; "himself"; "his"; "how"; "however";
   "hundred"; "i"; "if"; "in"; "indeed"; "into"; "is"; "isn"; "isn't"; "it"; "it's"; "its"; "itself"; "just";
   "latter"; "latterly"; "least"; "ll"; "may"; "me"; "meanwhile"; "mightn"; "mightn't"; "mine"; "more";
   "moreover"; "most"; "mostly"; "must"; "mustn"; "mustn't"; "my"; "myself"; "namely"; "needn"; "needn't";
   "neither"; "never"; "nevertheless"; "next"; "no"; "nobody"; "none"; "noone"; "nor"; "not"; "nothing";
   "now"; "nowhere"; "o"; "of"; "off"; "on"; "once"; "one"; "only"; "onto"; "or"; "other"; "others";
   "otherwise"; "our"; "ours"; "ourselves"; "out"; "over"; "per"; "please"; "s"; "same"; "shan"; "shan't";
   "she"; "she's"; "should've"; "shouldn"; "shouldn't"; "somehow"; "something"; "sometime"; "somewhere";
   "such"; "t"; "than"; "that"; "that'll"; "the"; "their"; "theirs"; "them"; "themselves"; "then"; "thence";
   "there"; "thereafter"; "thereby"; "therefore"; "therein"; "thereupon"; "these"; "they"; "this"; "those";
   "through"; "throughout"; "thru"; "thus"; "to"; "too"; "toward"; "towards"; "under"; "unless"; "until";
   "up"; "upon"; "used"; "ve"; "was"; "wasn"; "wasn't"; "we"; "were"; "weren"; "weren't"; "what"; "whatever";
   "when"; "whence"; "whenever"; "where"; "whereafter"; "whereas"; "whereby"; "wherein"; "whereupon";
   "wherever"; "whether"; "which"; "while"; "whither"; "who"; "whoever"; "whole"; "whom"; "whose"; "why";
   "with"; "within"; "without"; "won"; "won't"; "would"; "wouldn"; "wouldn't"; "y"; "yet"; "you"; "you'd";
   "you'll"; "you're"; "you've"; "your"; "yours"; "yourself"; "yourselves"]%string.

Definition init (env : Env) (kw : kwargs) : Py.result Augmenter :=
  let transformation := WordSwapEmbedding 50 in
  let input_column_modification :=
    InputColumnModification ["premise"; "hypothesis"] ["premise"] in
  let use_constraint :=
    UniversalSentenceEncoder (Py.Finite (840845057 # 1000000000))
      (UseOpts (Some "angular") (Some false) (Some 15) (Some true)) in
  let constraints :=
    [ RepeatModification;
      StopwordModification (Some stopwords);
      input_column_modification;
      WordEmbeddingDistance (Py.Finite (5 # 10));
      PartOfSpeech true ] ++ [use_constraint] in
  Augmenter_init env transformation (Some constraints) kw.
End TextFoolerAugmenter.

Module DeepWordBugAugmenter.
Definition default_use_all_transformations : bool := true.

Definition init (env : Env) (use_all_transformations : option bool) (kw : kwargs)
  : Py.result Augmenter :=
  let use_all_transformations :=
    default default_use_all_transformations use_all_transformations in
  let transformation :=
    if use_all_transformations then
      CompositeTransformation
        [ WordSwapNeighboringCharacterSwap no_opts;
          WordSwapRandomCharacterSubstitution no_opts;
          WordSwapRandomCharacterDeletion no_opts;
          WordSwapRandomCharacterInsertion no_opts None ]
    else WordSwapRandomCharacterSubstitution no_opts in
  let use_constraint := LevenshteinEditDistance 30 in
  let constraints :=
    [RepeatModification; StopwordModification None] ++ [use_constraint] in
  Augmenter_init env transformation (Some constraints) kw.
End DeepWordBugAugmenter.

Module BackTranslationAugmenter.
Definition init (env : Env) (kw : kwargs) : Py.result Augmenter :=
  let transformation := BackTranslation 5 in
  Augmenter_init env transformation None kw.
End BackTranslationAugmenter.

Module EasyDataAugmenter.

(** The attributes [__init__] sets on [self]. *)
Record t : Type := {
  pct_words_to_swap : Py.float;
  transformations_per_example : Z;
  synonym_replacement : Augmenter;
  random_deletion : Augmenter;
  random_swap : Augmenter;
  random_insertion : Augmenter
}.

Definition default_pct_words_to_swap : Py.float := Py.Finite (1 # 10).
Definition default_transformations_per_example : Z := 4.

Definition n_aug_each (transformations_per_example : Z) : Z :=
  Z.max (transformations_per_example / 4) 1.

Definition init (env : Env) (kw : kwargs) : Py.result t :=
  let pct_words_to_swap :=
    default default_pct_words_to_swap (kw_pct_words_to_swap kw) in
  let transformations_per_example :=
    default default_transformations_per_example (kw_transformations_per_example kw) in
  Py.assert (pct_in_range pct_words_to_swap) pct_msg;;
  Py.assert (transformations_per_example >? 0) tpe_msg;;
  let n_aug_each := n_aug_each transformations_per_example in
  let sub := Kwargs (Some pct_words_to_swap) (Some n_aug_each) in
  synonym_replacement ← WordNetAugmenter.init env sub;
  random_deletion ← DeletionAugmenter.init env sub;
  random_swap ← SwapAugmenter.init env sub;
  random_insertion ← SynonymInsertionAugmenter.init env sub;
  mret {| pct_words_to_swap := pct_words_to_swap;
          transformations_per_example := transformations_per_example;
          synonym_replacement := synonym_replacement;
          random_deletion := random_deletion;
          random_swap := random_swap;
          random_insertion := random_insertion |}.

(** The four sub-recipes, in the order [augment] calls them. *)
Definition sub_recipes (self : t) : list Augmenter :=
  [synonym_replacement self; random_deletion self;
   random_swap self; random_insertion self].

Section Augment.
Context (R : Random.source) (H : PySet.order).

(** [Augmenter.augment] of the base class, which the four sub-recipes
    inherit; it is not among the sources and is left open here. *)
Variable Augmenter_augment : Augmenter -> string -> Run (Random.state R) (list string).

Definition augment (self : t) (text : string) : Run (Random.state R) (list string) :=
  let augmented_text := [] in
  out ← Augmenter_augment (synonym_replacement self) text;
  let augmented_text := augmented_text ++ out in
  out ← Augmenter_augment (random_deletion self) text;
  let augmented_text := augmented_text ++ out in
  out ← Augmenter_augment (random_swap self) text;
  let augmented_text := augmented_text ++ out in
  out ← Augmenter_augment (random_insertion self) text;
  let augmented_text := augmented_text ++ out in
  let augmented_text := PySet.to_list H augmented_text in
  augmented_text ← random_shuffle R augmented_text;
  mret (Py.slice_to augmented_text (transformations_per_example self)).
End Augment.

End EasyDataAugmenter.

(** ** The aggregate recipe, in the words of its description *)

Module EasySpec.
Section Spec.
Context (R : Random.source) (H : PySet.order).
Variable Augmenter_augment : Augmenter -> string -> Run (Random.state R) (list string).

(** The outputs of the sub-recipes, each run in turn on the text. *)
Fixpoint sub_outputs (recipes : list Augmenter) (text : string)
  : Run (Random.state R) (list (list string)) :=
  match recipes with
  | [] => mret []
  | a :: recipes' =>
      out ← Augmenter_augment a text;
      outs ← sub_outputs recipes' text;
      mret (out :: outs)
  end.

Definition union (outs : list (list string)) : list string := concat outs.

Definition deduplicate (l : list string) : list string := PySet.to_list H l.

Definition truncate (n : Z) (l : list string) : list string :=
  take (Z.to_nat n) l.

(** Union of the sub-recipes' outputs, deduplicated, shuffled with the
    process-wide random source, truncated to the requested count. *)
Definition pipeline (self : EasyDataAugmenter.t) (text : string)
  : Run (Random.state R) (list string) :=
  outs ← sub_outputs (EasyDataAugmenter.sub_recipes self) text;
  shuffled ← random_shuffle R (deduplicate (union outs));
  mret (truncate (EasyDataAugmenter.transformations_per_example self) shuffled).
End Spec.
End EasySpec.

(** ** The catalog *)

(** A constructor call on one of the fourteen classes, with the keywords
    of its own that the class accepts besides [**kwargs]. *)
Inductive recipe : Type :=
| Easy
| Swap
| SynonymInsertion
| WordNet
| Deletion
| Embedding
| CharSwap
| CheckList
| CLARE (model tokenizer : option string)
| Pruthi (max_num_word_swaps : option Z)
| TextBugger
| TextFooler
| DeepWordBug (use_all_transformations : option bool)
| BackTranslationRecipe.

(** What a constructor returns: the aggregate recipe is no [Augmenter]
    of the base class' making (it never calls [super().__init__]). *)
Inductive recipe_object : Type :=
| EasyObject (e : EasyDataAugmenter.t)
| AugmenterObject (a : Augmenter).

Definition construct (env : Env) (r : recipe) (kw : kwargs) : Py.result recipe_object :=
  match r with
  | Easy => EasyObject <$> EasyDataAugmenter.init env kw
  | Swap => AugmenterObject <$> SwapAugmenter.init env kw
  | SynonymInsertion => AugmenterObject <$> SynonymInsertionAugmenter.init env kw
  | WordNet => AugmenterObject <$> WordNetAugmenter.init env kw
  | Deletion => AugmenterObject <$> DeletionAugmenter.init env kw
  | Embedding => AugmenterObject <$> EmbeddingAugmenter.init env kw
  | CharSwap => AugmenterObject <$> CharSwapAugmenter.init env kw
  | CheckList => AugmenterObject <$> CheckListAugmenter.init env kw
  | CLARE model tokenizer => AugmenterObject <$> CLAREAugmenter.init env model tokenizer kw
  | Pruthi n => AugmenterObject <$> PruthiAugmenter.init env n kw
  | TextBugger => AugmenterObject <$> TextBuggerAugmenter.init env kw
  | TextFooler => AugmenterObject <$> TextFoolerAugmenter.init env kw
  | DeepWordBug u => AugmenterObject <$> DeepWordBugAugmenter.init env u kw
  | BackTranslationRecipe => AugmenterObject <$> BackTranslationAugmenter.init env kw
  end.

(** ** The constraint chain and the augmentation driver *)

(** Character-level Levenshtein distance: the least number of single
    character insertions, deletions and substitutions that turn [s]
    into [t]. *)
Fixpoint levenshtein (s : string) : string -> nat :=
  fix against (t : string) : nat :=
    match s, t with
    | EmptyString, _ => String.length t
    | _, EmptyString => String.length s
    | String a s', String b t' =>
        let deletion := S (levenshtein s' t) in
        let insertion := S (against t') in
        let substitution :=
          ((if Ascii.eqb a b then 0 else 1) + levenshtein s' t')%nat in
        Nat.min deletion (Nat.min insertion substitution)
    end.

Module Chain.
Section Chain.
(** The acceptance rules of the individual constraints live in their
    own classes, outside this file: the positions a pre-transformation
    constraint leaves eligible, and the verdict of a
    post-transformation constraint on a candidate. *)
Variable filter_indices : constraint -> string -> gset nat.
Variable check_external : constraint -> string -> string -> bool.

(** Modelled from the spec: the classes of the individual constraints
    are not among the sources.  The edit-distance ceiling accepts a
    candidate when its character-level edit distance from the
    original does not exceed the bound; the other rules are left to
    [check_external]. *)
Definition check (c : constraint) (original candidate : string) : bool :=
  match c with
  | LevenshteinEditDistance k =>
      Z.of_nat (levenshtein original candidate) <=? k
  | _ => check_external c original candidate
  end.

(** Modelled from the spec: the constraint chain of the [Augmenter]
    is not among the sources.  Pre-transformation constraints are
    evaluated once per original text and produce an eligible-index
    set intersected across all of them. *)
Fixpoint eligible_indices (cs : list constraint) (text : string)
    (positions : gset nat) : gset nat :=
  match cs with
  | [] => positions
  | c :: cs' =>
      if is_pre_transformation c
      then filter_indices c text ∩ eligible_indices cs' text positions
      else eligible_indices cs' text positions
  end.

(** Modelled from the spec: post-transformation constraints are
    evaluated once per candidate, in the order of the list, and the
    evaluation stops at the first rejection. *)
Fixpoint is_acceptable (cs : list constraint) (original candidate : string) : bool :=
  match cs with
  | [] => true
  | c :: cs' =>
      if is_pre_transformation c then is_acceptable cs' original candidate
      else if check c original candidate
           then is_acceptable cs' original candidate
           else false
  end.

(** The constraints of a list whose verdict a candidate needs. *)
Definition post_transformation (cs : list constraint) : list constraint :=
  filter (fun c => is_pre_transformation c = false) cs.
End Chain.
End Chain.

Module Driver.
Section Driver.
Context (R : Random.source).
Variable filter_indices : constraint -> string -> gset nat.
Variable check_external : constraint -> string -> string -> bool.

(** What the transformation classes do is outside this file: the
    candidates a transformation produces for a text and a set of
    eligible positions (it may draw random numbers, and raises when a
    resource it needs is unavailable), the word positions of a text,
    and the number of words a fraction asks to alter. *)
Variable apply_transformation :
  transformation -> string -> gset nat -> Run (Random.state R) (list string).
Variable word_positions : string -> gset nat.
Variable words_to_alter : Py.float -> string -> nat.

(** [random.choice(l)] on a non-empty list. *)
Definition random_choice (x : string) (l : list string)
  : Run (Random.state R) string :=
  fun s =>
    let '(j, s') := Random.randbelow R s (S (length l)) in
    (Py.Ok (nth j (x :: l) x), s').

(** Modelled from the spec: [Augmenter.augment] is not among the
    sources.  One augmented text comes from repeated transformation
    and constraint filtering: generate the candidates of the current
    text at the eligible positions, keep those the chain accepts
    against the original, and go on from one of them. *)
Fixpoint perturb (a : Augmenter) (original current : string)
    (accepted : option string) (rounds : nat)
  : Run (Random.state R) (option string) :=
  match rounds with
  | O => mret accepted
  | S rounds' =>
      candidates ←
        apply_transformation (transformation_of a) current
          (Chain.eligible_indices filter_indices (constraints_of a)
             current (word_positions current));
      match filter (fun c => Chain.is_acceptable check_external
                               (constraints_of a) original c = true)
                   candidates with
      | [] => mret accepted
      | c :: cs =>
          next ← random_choice c cs;
          perturb a original next (Some next) rounds'
      end
  end.

Fixpoint examples (a : Augmenter) (text : string) (n : nat)
  : Run (Random.state R) (list string) :=
  match n with
  | O => mret []
  | S n' =>
      x ← perturb a text text None
             (words_to_alter (pct_words_to_swap a) text);
      rest ← examples a text n';
      mret (option_list x ++ rest)
  end.

(** Modelled from the spec: the result is a deduplicated list of
    accepted augmented texts, of size at most the configured output
    count. *)
Definition augment (a : Augmenter) (text : string)
  : Run (Random.state R) (list string) :=
  let n := Z.to_nat (transformations_per_example a) in
  outs ← examples a text n;
  mret (take n (remove_dups outs)).
End Driver.
End Driver.

(** ** Concrete runtimes

    One generator and two iteration orders, to run the definitions on. *)

Module Lcg.
Definition modulus : Z := 2147483648.

Definition next (s : Z) : Z := (1103515245 * s + 12345) mod modulus.

Definition randbelow (s : Z) (n : nat) : nat * Z :=
  let s' := next s in
  (Z.to_nat ((s' / 65536) mod Z.of_nat n), s').

Lemma randbelow_lt (s : Z) (n : nat) :
  (0 < n)%nat -> ((randbelow s n).1 < n)%nat.
Proof.
  intros Hn. unfold randbelow. cbn [fst].
  pose proof (Z.mod_pos_bound (next s / 65536) (Z.of_nat n)) as Hb.
  lia.
Qed.

Definition source : Random.source :=
  {| Random.state := Z;
     Random.seed := fun k => k mod modulus;
     Random.randbelow := randbelow;
     Random.randbelow_lt := randbelow_lt |}.
End Lcg.

Module Orders.
(** Distinct elements in the order of their last occurrence. *)
Definition forward : PySet.order :=
  {| PySet.to_list := remove_dups;
     PySet.to_list_NoDup := NoDup_remove_dups;
     PySet.to_list_elem := fun l x => elem_of_remove_dups l x |}.

Lemma reverse_remove_dups_NoDup (l : list string) : NoDup (reverse (remove_dups l)).
Proof. rewrite reverse_Permutation. apply NoDup_remove_dups. Qed.

Lemma reverse_remove_dups_elem (l : list string) (x : string) :
  x ∈ reverse (remove_dups l) <-> x ∈ l.
Proof. rewrite elem_of_reverse. apply elem_of_remove_dups. Qed.

(** The same elements, enumerated the other way round. *)
Definition backward : PySet.order :=
  {| PySet.to_list := fun l => reverse (remove_dups l);
     PySet.to_list_NoDup := reverse_remove_dups_NoDup;
     PySet.to_list_elem := reverse_remove_dups_elem |}.
End Orders.

Module Worlds.
(** Every model and tokenizer can be loaded. *)
Definition online : Env :=
  {| Augmenter_default_pct := Py.Finite (1 # 10);
     Augmenter_default_tpe := 1;
     AutoModelForCausalLM_from_pretrained := fun name => Py.Ok (Pretrained name);
     AutoTokenizer_from_pretrained := fun name => Py.Ok (Pretrained name) |}.

End Worlds.

Module Stubs.
(** Stand-ins for [Augmenter.augment], which leave the generator alone. *)

(** Fixed outputs per transformation, with two strings produced twice. *)
Definition canned (a : Augmenter) (text : string) : Run Z (list string) :=
  fun s =>
    (Py.Ok match transformation_of a with
           | WordSwapWordNet => ["the fast fox"; "the quick dog"]
           | WordDeletion => ["quick fox"; "the fox"]
           | WordInnerSwapRandom => ["the fox quick"; "quick fox"]
           | _ => ["the very quick fox"; "the fast fox"]
           end, s).

(** One output from each of the first two sub-recipes, none from the
    others. *)
Definition pair (a : Augmenter) (text : string) : Run Z (list string) :=
  fun s =>
    (Py.Ok match transformation_of a with
           | WordSwapWordNet => ["the fast fox"]
           | WordDeletion => ["quick fox"]
           | _ => []
           end, s).



(** The aggregate recipe with its default arguments. *)
Definition easy : EasyDataAugmenter.t :=
  let pct := EasyDataAugmenter.default_pct_words_to_swap in
  let sub t :=
    {| transformation_of := t;
       constraints_of := DEFAULT_CONSTRAINTS;
       pct_words_to_swap := pct;
       transformations_per_example := 1 |} in
  {| EasyDataAugmenter.pct_words_to_swap := pct;
     EasyDataAugmenter.transformations_per_example := 4;
     EasyDataAugmenter.synonym_replacement := sub WordSwapWordNet;
     EasyDataAugmenter.random_deletion := sub WordDeletion;
     EasyDataAugmenter.random_swap := sub WordInnerSwapRandom;
     EasyDataAugmenter.random_insertion := sub WordInsertionRandomSynonym |}.
End Stubs.

Module ChainStubs.
(** Stand-ins for the rules of the individual constraints and for a
    transformation, on three-word texts. *)

Definition filter_indices (c : constraint) (text : string) : gset nat :=
  match c with
  | RepeatModification => {[0%nat; 1%nat; 2%nat]}
  | StopwordModification _ => {[1%nat; 2%nat]}
  | MinWordLength _ => {[1%nat]}
  | _ => ∅
  end.

Definition check_external (c : constraint) (original candidate : string) : bool :=
  match c with
  | MaxWordsPerturbed _ => true
  | WordEmbeddingDistance _ => String.eqb original candidate
  | _ => false
  end.

(** Forty exclamation marks. *)
Definition shout : string :=
  "!!!!!!!!!!!!!!!!!!!!!!!!!!!!!!!!!!!!!!!!".

(** Two single-letter edits of a text, one of them proposed twice, and
    the text with forty characters appended. *)
Definition apply_transformation (t : transformation) (text : string)
    (eligible : gset nat) : Run Z (list string) :=
  fun s =>
    (Py.Ok match text with
           | String _ rest =>
               [String "b"%char rest; text +:+ shout;
                String "c"%char rest; String "b"%char rest]
           | EmptyString => []
           end, s).

Definition word_positions (text : string) : gset nat := {[0%nat]}.

Definition words_to_alter (pct : Py.float) (text : string) : nat := 1.
End ChainStubs.

(** ** Terms of the statements *)

(** The closed interval [[0,1]]: a finite value between 0 and 1. *)
Definition in_unit_interval (p : Py.float) : Prop :=
  exists q : Q, p = Py.Finite q /\ (0 <= q)%Q /\ (q <= 1)%Q.

(** The value a recipe ends up with for each override: the keyword when
    it is passed, the default of the class that handles it otherwise. *)
Definition pct_in_effect (env : Env) (r : recipe) (kw : kwargs) : Py.float :=
  default (match r with
           | Easy => EasyDataAugmenter.default_pct_words_to_swap
           | _ => Augmenter_default_pct env
           end) (kw_pct_words_to_swap kw).

Definition tpe_in_effect (env : Env) (r : recipe) (kw : kwargs) : Z :=
  default (match r with
           | Easy => EasyDataAugmenter.default_transformations_per_example
           | _ => Augmenter_default_tpe env
           end) (kw_transformations_per_example kw).

(** The loads a constructor performs itself all succeed: only
    [CLAREAugmenter] performs any. *)
Definition loads_succeed (env : Env) (r : recipe) : Prop :=
  match r with
  | CLARE model tokenizer =>
      Py.is_Ok (AutoModelForCausalLM_from_pretrained env
                  (default CLAREAugmenter.default_model model)) = true /\
      Py.is_Ok (AutoTokenizer_from_pretrained env
                  (default CLAREAugmenter.default_tokenizer tokenizer)) = true
  | _ => True
  end.

(** A sub-recipe of the aggregate recipe, as its constructor configures it. *)
Definition Easy_sub (t : transformation) (pct : Py.float) (tpe : Z) : Augmenter :=
  {| transformation_of := t;
     constraints_of := DEFAULT_CONSTRAINTS;
     pct_words_to_swap := pct;
     transformations_per_example := EasyDataAugmenter.n_aug_each tpe |}.

Module Claims.
(** Statements as the description of the recipes words them, for the
    two that the code does not bear out. *)


End Claims.

(** * Properties *)

(** ** Validation of the constructor arguments *)

Lemma pct_in_range_iff (p : Py.float) :
  pct_in_range p = true <-> in_unit_interval p.
Proof.
  unfold pct_in_range, in_unit_interval. split.
  - destruct p as [q | [] | ]; cbn; try discriminate.
    rewrite andb_true_iff, !Qle_bool_iff. intros [H0 H1]. by exists q.
  - intros (q & -> & H0 & H1). cbn.
    apply andb_true_iff. by rewrite !Qle_bool_iff.
Qed.

Lemma pct_out_of_range (p : Py.float) :
  ~ in_unit_interval p -> pct_in_range p = false.
Proof.
  intros Hn. destruct (pct_in_range p) eqn:E; [|done].
  by apply pct_in_range_iff in E.
Qed.

Lemma n_aug_each_positive (n : Z) : (0 <? EasyDataAugmenter.n_aug_each n) = true.
Proof. unfold EasyDataAugmenter.n_aug_each. apply Z.ltb_lt. lia. Qed.

(** The three outcomes of the base constructor. *)
Lemma Augmenter_init_bad_pct env t cs kw :
  pct_in_range (default (Augmenter_default_pct env) (kw_pct_words_to_swap kw)) = false ->
  Augmenter_init env t cs kw = Py.Raise (Py.AssertionError pct_msg).
Proof. intros E. unfold Augmenter_init. by rewrite E. Qed.

Lemma Augmenter_init_bad_tpe env t cs kw :
  pct_in_range (default (Augmenter_default_pct env) (kw_pct_words_to_swap kw)) = true ->
  (0 <? default (Augmenter_default_tpe env) (kw_transformations_per_example kw)) = false ->
  Augmenter_init env t cs kw = Py.Raise (Py.AssertionError tpe_msg).
Proof. intros E1 E2. unfold Augmenter_init. by rewrite Z.gtb_ltb, E1, E2. Qed.

Lemma Augmenter_init_ok env t cs kw :
  pct_in_range (default (Augmenter_default_pct env) (kw_pct_words_to_swap kw)) = true ->
  (0 <? default (Augmenter_default_tpe env) (kw_transformations_per_example kw)) = true ->
  Augmenter_init env t cs kw =
  Py.Ok {| transformation_of := t;
           constraints_of := default [] cs;
           pct_words_to_swap := default (Augmenter_default_pct env) (kw_pct_words_to_swap kw);
           transformations_per_example :=
             default (Augmenter_default_tpe env) (kw_transformations_per_example kw) |}.
Proof. intros E1 E2. unfold Augmenter_init. by rewrite Z.gtb_ltb, E1, E2. Qed.

(** What the base constructor returns, it was given. *)
Lemma Augmenter_init_inv env t cs kw a :
  Augmenter_init env t cs kw = Py.Ok a ->
  transformation_of a = t /\ constraints_of a = default [] cs /\
  pct_words_to_swap a = default (Augmenter_default_pct env) (kw_pct_words_to_swap kw) /\
  transformations_per_example a =
    default (Augmenter_default_tpe env) (kw_transformations_per_example kw) /\
  pct_in_range (pct_words_to_swap a) = true /\ 0 < transformations_per_example a.
Proof.
  unfold Augmenter_init. rewrite Z.gtb_ltb.
  destruct (pct_in_range _) eqn:E1; [|discriminate].
  destruct (0 <? _) eqn:E2; [|discriminate].
  cbn. intros [= <-]. cbn. apply Z.ltb_lt in E2. done.
Qed.

(** The aggregate recipe: the same three outcomes, and the object built. *)
Lemma Easy_init_bad_pct env kw :
  pct_in_range (pct_in_effect env Easy kw) = false ->
  EasyDataAugmenter.init env kw = Py.Raise (Py.AssertionError pct_msg).
Proof. unfold pct_in_effect, EasyDataAugmenter.init. intros E. by rewrite E. Qed.

Lemma Easy_init_bad_tpe env kw :
  pct_in_range (pct_in_effect env Easy kw) = true ->
  (0 <? tpe_in_effect env Easy kw) = false ->
  EasyDataAugmenter.init env kw = Py.Raise (Py.AssertionError tpe_msg).
Proof.
  unfold pct_in_effect, tpe_in_effect, EasyDataAugmenter.init.
  intros E1 E2. by rewrite Z.gtb_ltb, E1, E2.
Qed.

Lemma Easy_init_ok env kw :
  pct_in_range (pct_in_effect env Easy kw) = true ->
  (0 <? tpe_in_effect env Easy kw) = true ->
  EasyDataAugmenter.init env kw =
  Py.Ok {| EasyDataAugmenter.pct_words_to_swap := pct_in_effect env Easy kw;
           EasyDataAugmenter.transformations_per_example := tpe_in_effect env Easy kw;
           EasyDataAugmenter.synonym_replacement :=
             Easy_sub WordSwapWordNet (pct_in_effect env Easy kw) (tpe_in_effect env Easy kw);
           EasyDataAugmenter.random_deletion :=
             Easy_sub WordDeletion (pct_in_effect env Easy kw) (tpe_in_effect env Easy kw);
           EasyDataAugmenter.random_swap :=
             Easy_sub WordInnerSwapRandom (pct_in_effect env Easy kw) (tpe_in_effect env Easy kw);
           EasyDataAugmenter.random_insertion :=
             Easy_sub WordInsertionRandomSynonym (pct_in_effect env Easy kw)
               (tpe_in_effect env Easy kw) |}.
Proof.
  unfold pct_in_effect, tpe_in_effect, EasyDataAugmenter.init.
  intros E1 E2. rewrite Z.gtb_ltb, E1, E2. cbn.
  unfold WordNetAugmenter.init, DeletionAugmenter.init, SwapAugmenter.init,
    SynonymInsertionAugmenter.init, Augmenter_init. cbn.
  by rewrite Z.gtb_ltb, E1, n_aug_each_positive.
Qed.

Lemma Easy_init_inv env kw e :
  EasyDataAugmenter.init env kw = Py.Ok e ->
  pct_in_range (pct_in_effect env Easy kw) = true /\
  0 < tpe_in_effect env Easy kw /\
  EasyDataAugmenter.transformations_per_example e = tpe_in_effect env Easy kw /\
  EasyDataAugmenter.pct_words_to_swap e = pct_in_effect env Easy kw /\
  EasyDataAugmenter.sub_recipes e =
    map (fun t => Easy_sub t (pct_in_effect env Easy kw) (tpe_in_effect env Easy kw))
        [WordSwapWordNet; WordDeletion; WordInnerSwapRandom; WordInsertionRandomSynonym].
Proof.
  intros Hinit.
  destruct (pct_in_range (pct_in_effect env Easy kw)) eqn:E1;
    [|rewrite Easy_init_bad_pct in Hinit; done].
  destruct (0 <? tpe_in_effect env Easy kw) eqn:E2;
    [|rewrite Easy_init_bad_tpe in Hinit; done].
  rewrite Easy_init_ok in Hinit by done. injection Hinit as <-.
  apply Z.ltb_lt in E2. done.
Qed.

(** Every constructor but the aggregate one ends in the base constructor. *)
Ltac unfold_recipes :=
  unfold construct, SwapAugmenter.init, SynonymInsertionAugmenter.init,
    WordNetAugmenter.init, DeletionAugmenter.init, EmbeddingAugmenter.init,
    CharSwapAugmenter.init, CheckListAugmenter.init, CLAREAugmenter.init,
    PruthiAugmenter.init, TextBuggerAugmenter.init, TextFoolerAugmenter.init,
    DeepWordBugAugmenter.init, BackTranslationAugmenter.init.

Lemma construct_bad_pct env r kw :
  loads_succeed env r ->
  pct_in_range (pct_in_effect env r kw) = false ->
  construct env r kw = Py.Raise (Py.AssertionError pct_msg).
Proof.
  intros Hl E.
  destruct r as [ | | | | | | | |m t| | | | | ];
    try (cbn [construct]; unfold_recipes; cbn;
         first [ rewrite Easy_init_bad_pct by done
               | rewrite Augmenter_init_bad_pct by done ]; done).
  cbn [construct]. unfold_recipes. cbn in Hl. destruct Hl as [Em Et].
  destruct (AutoModelForCausalLM_from_pretrained _ _); [|discriminate].
  destruct (AutoTokenizer_from_pretrained _ _); [|discriminate].
  cbn. by rewrite Augmenter_init_bad_pct.
Qed.

Lemma construct_bad_tpe env r kw :
  loads_succeed env r ->
  pct_in_range (pct_in_effect env r kw) = true ->
  (0 <? tpe_in_effect env r kw) = false ->
  construct env r kw = Py.Raise (Py.AssertionError tpe_msg).
Proof.
  intros Hl E1 E2.
  destruct r as [ | | | | | | | |m t| | | | | ];
    try (cbn [construct]; unfold_recipes; cbn;
         first [ rewrite Easy_init_bad_tpe by done
               | rewrite Augmenter_init_bad_tpe by done ]; done).
  cbn [construct]. unfold_recipes. cbn in Hl. destruct Hl as [Em Et].
  destruct (AutoModelForCausalLM_from_pretrained _ _); [|discriminate].
  destruct (AutoTokenizer_from_pretrained _ _); [|discriminate].
  cbn. by rewrite Augmenter_init_bad_tpe.
Qed.

Lemma construct_ok env r kw :
  loads_succeed env r ->
  pct_in_range (pct_in_effect env r kw) = true ->
  (0 <? tpe_in_effect env r kw) = true ->
  exists obj, construct env r kw = Py.Ok obj.
Proof.
  intros Hl E1 E2.
  destruct r as [ | | | | | | | |m t| | | | | ];
    try (cbn [construct]; unfold_recipes; cbn;
         first [ rewrite Easy_init_ok by done
               | rewrite Augmenter_init_ok by done ]; cbn; eauto; fail).
  cbn [construct]. unfold_recipes. cbn in Hl. destruct Hl as [Em Et].
  destruct (AutoModelForCausalLM_from_pretrained _ _); [|discriminate].
  destruct (AutoTokenizer_from_pretrained _ _); [|discriminate].
  cbn. rewrite Augmenter_init_ok by done. cbn. eauto.
Qed.

(** A constructor that returns has checked both arguments. *)
Lemma construct_checked env r kw obj :
  construct env r kw = Py.Ok obj ->
  pct_in_range (pct_in_effect env r kw) = true /\ 0 < tpe_in_effect env r kw.
Proof.
  intros Hc.
  assert (forall t cs (f : Augmenter -> recipe_object),
             f <$> Augmenter_init env t cs kw = Py.Ok obj ->
             pct_in_range (default (Augmenter_default_pct env) (kw_pct_words_to_swap kw)) = true /\
             0 < default (Augmenter_default_tpe env) (kw_transformations_per_example kw)) as Hbase.
  { intros t cs f Hf. destruct (Augmenter_init env t cs kw) as [a|] eqn:Ea; [|discriminate].
    apply Augmenter_init_inv in Ea as (_ & _ & Hp & Ht & Hr & Hpos).
    rewrite <- Hp, <- Ht. done. }
  destruct r as [ | | | | | | | |m t| | | | | ]; cbn [construct] in Hc;
    unfold pct_in_effect, tpe_in_effect; try (unfold_recipes; eapply Hbase; exact Hc).
  - destruct (EasyDataAugmenter.init env kw) as [e|] eqn:Ee; [|discriminate].
    apply Easy_init_inv in Ee as (? & ? & _). done.
  - unfold CLAREAugmenter.init in Hc.
    destruct (AutoModelForCausalLM_from_pretrained _ _); [|discriminate].
    destruct (AutoTokenizer_from_pretrained _ _); [|discriminate].
    cbn in Hc. eapply Hbase, Hc.
Qed.

Lemma construct_raises env r kw :
  pct_in_range (pct_in_effect env r kw) = false \/ tpe_in_effect env r kw <= 0 ->
  exists e, construct env r kw = Py.Raise e.
Proof.
  intros Hbad. destruct (construct env r kw) as [obj|e] eqn:Ec; [|by exists e].
  apply construct_checked in Ec as [Hp Ht].
  destruct Hbad as [Hbad|Hbad]; [congruence|lia].
Qed.

(** C1. For every recipe constructor, a [pct_words_to_swap] outside the
    closed interval [0,1] is rejected when the recipe is constructed: no
    object is returned, and (the constructor's own model loads done) the
    failure is the configuration error of the range check.  A value
    inside [0,1] is accepted: with a positive output count in effect
    the constructor returns the recipe. *)
Theorem pct_words_to_swap_checked_at_construction
    (env : Env) (r : recipe) (kw : kwargs) (p : Py.float) :
  kw_pct_words_to_swap kw = Some p ->
  (~ in_unit_interval p -> exists e, construct env r kw = Py.Raise e) /\
  (loads_succeed env r ->
     (~ in_unit_interval p ->
        exists msg, construct env r kw = Py.Raise (Py.AssertionError msg)) /\
     (in_unit_interval p -> 0 < tpe_in_effect env r kw ->
        exists obj, construct env r kw = Py.Ok obj)).
Proof.
  intros Hkw.
  assert (pct_in_effect env r kw = p) as Hp.
  { unfold pct_in_effect. by rewrite Hkw. }
  split; [|intros Hl; split].
  - intros Hout. apply construct_raises. left.
    rewrite Hp. by apply pct_out_of_range.
  - intros Hout. exists pct_msg. apply construct_bad_pct; [done|].
    rewrite Hp. by apply pct_out_of_range.
  - intros Hin Htpe. apply construct_ok; [done| |by apply Z.ltb_lt].
    rewrite Hp. by apply pct_in_range_iff.
Qed.

(** C2. For every recipe constructor, a [transformations_per_example]
    that is zero or negative is rejected when the recipe is constructed,
    as a configuration error once the constructor's own model loads are
    done; a positive one is accepted: with a fraction in [0,1] in effect
    the constructor returns the recipe. *)
Theorem transformations_per_example_checked_at_construction
    (env : Env) (r : recipe) (kw : kwargs) (n : Z) :
  kw_transformations_per_example kw = Some n ->
  (n <= 0 -> exists e, construct env r kw = Py.Raise e) /\
  (loads_succeed env r ->
     (n <= 0 ->
        exists msg, construct env r kw = Py.Raise (Py.AssertionError msg)) /\
     (0 < n -> in_unit_interval (pct_in_effect env r kw) ->
        exists obj, construct env r kw = Py.Ok obj)).
Proof.
  intros Hkw.
  assert (tpe_in_effect env r kw = n) as Hn.
  { unfold tpe_in_effect. by rewrite Hkw. }
  split; [|intros Hl; split].
  - intros Hle. apply construct_raises. right. by rewrite Hn.
  - intros Hle.
    destruct (pct_in_range (pct_in_effect env r kw)) eqn:Ep.
    + exists tpe_msg. apply construct_bad_tpe; [done..|].
      rewrite Hn. by apply Z.ltb_ge.
    + exists pct_msg. by apply construct_bad_pct.
  - intros Hpos Hin. apply construct_ok; [done| |].
    + by apply pct_in_range_iff.
    + rewrite Hn. by apply Z.ltb_lt.
Qed.

Lemma three_halves_outside : ~ in_unit_interval (Py.Finite (3 # 2)).
Proof. intros (q & [= <-] & _ & H). by vm_compute in H. Qed.

Lemma one_half_inside : in_unit_interval (Py.Finite (1 # 2)).
Proof. exists (1 # 2). repeat split; by vm_compute. Qed.

Lemma one_tenth_inside : in_unit_interval (Py.Finite (1 # 10)).
Proof. exists (1 # 10). repeat split; by vm_compute. Qed.

Lemma pct_words_to_swap_checked_witness :
  (exists msg,
     construct Worlds.online (CLARE None None)
       (Kwargs (Some (Py.Finite (3 # 2))) None) = Py.Raise (Py.AssertionError msg)) /\
  (exists obj,
     construct Worlds.online Easy
       (Kwargs (Some (Py.Finite (1 # 2))) None) = Py.Ok obj).
Proof.
  split.
  - apply (pct_words_to_swap_checked_at_construction Worlds.online (CLARE None None)
             (Kwargs (Some (Py.Finite (3 # 2))) None) (Py.Finite (3 # 2)) eq_refl).
    + split; reflexivity.
    + exact three_halves_outside.
  - apply (pct_words_to_swap_checked_at_construction Worlds.online Easy
             (Kwargs (Some (Py.Finite (1 # 2))) None) (Py.Finite (1 # 2)) eq_refl).
    + exact I.
    + exact one_half_inside.
    + reflexivity.
Defined.

Lemma transformations_per_example_checked_witness :
  (exists msg,
     construct Worlds.online (DeepWordBug None) (Kwargs None (Some 0)) =
     Py.Raise (Py.AssertionError msg)) /\
  (exists obj,
     construct Worlds.online (Pruthi (Some 2)) (Kwargs None (Some 3)) = Py.Ok obj).
Proof.
  split.
  - apply (transformations_per_example_checked_at_construction Worlds.online
             (DeepWordBug None) (Kwargs None (Some 0)) 0 eq_refl).
    + exact I.
    + lia.
  - apply (transformations_per_example_checked_at_construction Worlds.online
             (Pruthi (Some 2)) (Kwargs None (Some 3)) 3 eq_refl).
    + exact I.
    + lia.
    + exact one_tenth_inside.
Defined.

(** ** What each constructor hands to the base class *)

Lemma fmap_AugmenterObject_inv (c : Py.result Augmenter) (a : Augmenter) :
  AugmenterObject <$> c = Py.Ok (AugmenterObject a) -> c = Py.Ok a.
Proof. destruct c; cbn; [intros [= ->]; done | discriminate]. Qed.

Lemma fmap_EasyObject_inv (c : Py.result EasyDataAugmenter.t) (e : EasyDataAugmenter.t) :
  EasyObject <$> c = Py.Ok (EasyObject e) -> c = Py.Ok e.
Proof. destruct c; cbn; [intros [= ->]; done | discriminate]. Qed.

(** The constraint list of every recipe the base class builds. *)
Lemma construct_constraints env r kw a :
  construct env r kw = Py.Ok (AugmenterObject a) ->
  match r with
  | Easy => False
  | BackTranslationRecipe => constraints_of a = []
  | CheckList => constraints_of a = [RepeatModification]
  | _ =>
      RepeatModification ∈ constraints_of a /\
      Exists (fun c => is_stopword_modification c = true) (constraints_of a)
  end.
Proof.
  intros Hc.
  destruct r as [ | | | | | | | |m t| | | | | ]; cbn [construct] in Hc;
    try (apply fmap_AugmenterObject_inv in Hc; unfold_recipes; cbn in Hc;
         apply Augmenter_init_inv in Hc as (_ & -> & _); cbn;
         first [ done
               | split; [ set_solver
                        | repeat first [ by apply Exists_cons_hd
                                       | apply Exists_cons_tl ] ] ]).
  - destruct (EasyDataAugmenter.init env kw); discriminate.
  - apply fmap_AugmenterObject_inv in Hc. unfold CLAREAugmenter.init in Hc.
    destruct (AutoModelForCausalLM_from_pretrained _ _); [|discriminate].
    destruct (AutoTokenizer_from_pretrained _ _); [|discriminate].
    cbn in Hc. apply Augmenter_init_inv in Hc as (_ & -> & _). cbn.
    split; [set_solver|by apply Exists_cons_tl, Exists_cons_hd].
Qed.

(** C9. [BackTranslationAugmenter] hands the base class its transformation
    and nothing else; the augmenter it builds has an empty constraint
    chain, while every other recipe of the catalog that the base class
    builds carries the repeat-modification constraint, and so do the four
    sub-recipes of the aggregate recipe. *)
Theorem back_translation_has_no_constraints
    (env : Env) (kw : kwargs) (a : Augmenter) :
  BackTranslationAugmenter.init env kw = Py.Ok a ->
  BackTranslationAugmenter.init env kw = Augmenter_init env (BackTranslation 5) None kw /\
  transformation_of a = BackTranslation 5 /\
  constraints_of a = [] /\
  Forall (fun c => is_repeat_modification c = false /\
                   is_stopword_modification c = false) (constraints_of a) /\
  (forall r kw' a',
      r <> BackTranslationRecipe ->
      construct env r kw' = Py.Ok (AugmenterObject a') ->
      RepeatModification ∈ constraints_of a') /\
  (forall kw' e,
      construct env Easy kw' = Py.Ok (EasyObject e) ->
      Forall (fun a' => RepeatModification ∈ constraints_of a')
             (EasyDataAugmenter.sub_recipes e)).
Proof.
  intros Hinit. split; [reflexivity|].
  apply Augmenter_init_inv in Hinit as (-> & -> & _). cbn.
  split; [done|]. split; [done|]. split; [constructor|]. split.
  - intros r kw' a' Hr Hc. apply construct_constraints in Hc.
    destruct r; try done; try (by destruct Hc); rewrite Hc; set_solver.
  - intros kw' e Hc. cbn [construct] in Hc. apply fmap_EasyObject_inv in Hc.
    apply Easy_init_inv in Hc as (_ & _ & _ & _ & ->). cbn.
    repeat constructor; set_solver.
Qed.

Lemma back_translation_has_no_constraints_witness :
  exists a,
    BackTranslationAugmenter.init Worlds.online (Kwargs None (Some 2)) = Py.Ok a /\
    transformation_of a = BackTranslation 5 /\ constraints_of a = [].
Proof.
  eexists. split; [reflexivity|].
  split.
  - eapply (back_translation_has_no_constraints Worlds.online (Kwargs None (Some 2))).
    reflexivity.
  - eapply (back_translation_has_no_constraints Worlds.online (Kwargs None (Some 2))).
    reflexivity.
Defined.

(** C10. [CheckListAugmenter] hands the base class exactly one
    constraint, the first element of [DEFAULT_CONSTRAINTS], which is the
    repeat-modification constraint; no stopword constraint is in its
    chain, whereas every other word-level recipe of the catalog (all but
    the sentence-level back-translation one) has one, the four
    sub-recipes of the aggregate recipe included. *)
Theorem checklist_only_repeat_modification
    (env : Env) (kw : kwargs) (a : Augmenter) :
  CheckListAugmenter.init env kw = Py.Ok a ->
  CheckListAugmenter.init env kw =
    Augmenter_init env (transformation_of a) (Some [RepeatModification]) kw /\
  constraints_of a = [RepeatModification] /\
  constraints_of a = take 1 DEFAULT_CONSTRAINTS /\
  Forall (fun c => is_stopword_modification c = false) (constraints_of a) /\
  (forall r kw' a',
      r <> CheckList -> r <> BackTranslationRecipe ->
      construct env r kw' = Py.Ok (AugmenterObject a') ->
      Exists (fun c => is_stopword_modification c = true) (constraints_of a')) /\
  (forall kw' e,
      construct env Easy kw' = Py.Ok (EasyObject e) ->
      Forall (fun a' => Exists (fun c => is_stopword_modification c = true)
                               (constraints_of a'))
             (EasyDataAugmenter.sub_recipes e)).
Proof.
  intros Hinit. unfold CheckListAugmenter.init in *. cbn in *.
  apply Augmenter_init_inv in Hinit as (-> & -> & _). cbn.
  split; [done|]. split; [done|]. split; [done|].
  split; [by repeat constructor|]. split.
  - intros r kw' a' H1 H2 Hc. apply construct_constraints in Hc.
    destruct r; try done; by destruct Hc.
  - intros kw' e Hc. cbn [construct] in Hc. apply fmap_EasyObject_inv in Hc.
    apply Easy_init_inv in Hc as (_ & _ & _ & _ & ->). cbn.
    repeat constructor; by apply Exists_cons_tl, Exists_cons_hd.
Qed.

Lemma checklist_only_repeat_modification_witness :
  exists a,
    CheckListAugmenter.init Worlds.online (Kwargs None None) = Py.Ok a /\
    constraints_of a = [RepeatModification].
Proof.
  eexists. split; [reflexivity|].
  eapply (checklist_only_repeat_modification Worlds.online (Kwargs None None)).
  reflexivity.
Defined.

(** ** The shuffle *)

Section ShuffleFacts.
Context (R : Random.source) {A : Type}.
Implicit Types (x y : list A) (s : Random.state R).

Lemma swap_Permutation x i j : Random.swap x i j ≡ₚ x.
Proof.
  unfold Random.swap.
  destruct (x !! i) as [a|] eqn:Ei; [|done].
  destruct (x !! j) as [b|] eqn:Ej; [|done].
  by apply Permutation_insert_swap.
Qed.

Lemma shuffle_from_Permutation i x s : (Random.shuffle_from R i x s).1 ≡ₚ x.
Proof.
  revert x s. induction i as [|i IH]; intros x s; [done|].
  cbn [Random.shuffle_from].
  destruct (Random.randbelow R s (S (S i))) as [j s'].
  rewrite IH. apply swap_Permutation.
Qed.

Lemma shuffle_Permutation x s : (Random.shuffle R x s).1 ≡ₚ x.
Proof. apply shuffle_from_Permutation. Qed.

(** The shuffle moves positions only: from the same state, two lists of
    the same length that come out equal went in equal. *)
Lemma swap_involutive x i j : Random.swap (Random.swap x i j) i j = x.
Proof.
  destruct (x !! i) as [a|] eqn:Ei; [|by unfold Random.swap; rewrite Ei, Ei].
  destruct (x !! j) as [b|] eqn:Ej; [|by unfold Random.swap; rewrite Ei, Ej, Ei, Ej].
  assert (i < length x)%nat as Hi by (by eapply lookup_lt_Some).
  assert (j < length x)%nat as Hj by (by eapply lookup_lt_Some).
  unfold Random.swap at 2. rewrite Ei, Ej. unfold Random.swap.
  destruct (decide (i = j)) as [->|Hne].
  - assert (a = b) as -> by congruence.
    rewrite list_insert_insert_eq, (list_insert_id x j b) by done.
    rewrite Ej. by rewrite list_insert_insert_eq, list_insert_id.
  - rewrite list_lookup_insert_ne, list_lookup_insert_eq by done.
    rewrite list_lookup_insert_eq by (by rewrite length_insert).
    rewrite (list_insert_insert_ne _ i j) by done.
    rewrite !list_insert_insert_eq.
    by rewrite (list_insert_id x i a), list_insert_id.
Qed.

Lemma swap_inj x y i j : Random.swap x i j = Random.swap y i j -> x = y.
Proof.
  intros E. by rewrite <- (swap_involutive x i j), E, swap_involutive.
Qed.

Lemma shuffle_from_inj i x y s :
  (Random.shuffle_from R i x s).1 = (Random.shuffle_from R i y s).1 -> x = y.
Proof.
  revert x y s. induction i as [|i IH]; intros x y s; [done|].
  cbn [Random.shuffle_from].
  destruct (Random.randbelow R s (S (S i))) as [j s'].
  intros E%IH. by eapply swap_inj.
Qed.

Lemma shuffle_inj x y s :
  length x = length y ->
  (Random.shuffle R x s).1 = (Random.shuffle R y s).1 -> x = y.
Proof. unfold Random.shuffle. intros ->. apply shuffle_from_inj. Qed.
End ShuffleFacts.

(** ** The aggregate recipe's [augment] *)

Section EasyAugment.
Context (R : Random.source) (H : PySet.order).
Variable Augmenter_augment : Augmenter -> string -> Run (Random.state R) (list string).

Local Abbreviation augment := (EasyDataAugmenter.augment R H Augmenter_augment).
Local Abbreviation sub_outputs := (EasySpec.sub_outputs R Augmenter_augment).

(** The method, written as the calls of the sub-recipes followed by
    what is done with their outputs. *)
Lemma augment_unfold (self : EasyDataAugmenter.t) (text : string) (s : Random.state R) :
  augment self text s =
  match sub_outputs (EasyDataAugmenter.sub_recipes self) text s with
  | (Py.Ok outs, s1) =>
      let '(x, s2) := Random.shuffle R (PySet.to_list H (concat outs)) s1 in
      (Py.Ok (Py.slice_to x (EasyDataAugmenter.transformations_per_example self)), s2)
  | (Py.Raise e, s1) => (Py.Raise e, s1)
  end.
Proof.
  unfold EasyDataAugmenter.augment, EasyDataAugmenter.sub_recipes.
  cbn [EasySpec.sub_outputs]. unfold mbind, run_bind, mret, run_ret.
  destruct (Augmenter_augment _ text s) as [[o1|e1] s1]; [|done].
  destruct (Augmenter_augment _ text s1) as [[o2|e2] s2]; [|done].
  destruct (Augmenter_augment _ text s2) as [[o3|e3] s3]; [|done].
  destruct (Augmenter_augment _ text s3) as [[o4|e4] s4]; [|done].
  cbn [concat]. rewrite app_nil_r, app_nil_l, <- !app_assoc.
  unfold random_shuffle.
  by destruct (Random.shuffle R _ s4) as [x s5].
Qed.

Lemma slice_to_positive (l : list string) (n : Z) :
  0 < n -> Py.slice_to l n = take (Z.to_nat n) l.
Proof.
  intros Hn. unfold Py.slice_to.
  destruct (0 <=? n) eqn:E; [done|]. apply Z.leb_gt in E. lia.
Qed.

(** A raise of [sub_outputs] is the raise of one of the calls. *)
Lemma sub_outputs_raise recipes text s e s' :
  sub_outputs recipes text s = (Py.Raise e, s') ->
  exists a s0, a ∈ recipes /\ Augmenter_augment a text s0 = (Py.Raise e, s').
Proof.
  revert s. induction recipes as [|a recipes IH]; intros s; cbn; [discriminate|].
  unfold mbind, run_bind, mret, run_ret.
  destruct (Augmenter_augment a text s) as [[o|e0] s1] eqn:Ea.
  - destruct (sub_outputs recipes text s1) as [[outs|e1] s2] eqn:Er; [discriminate|].
    intros [= -> ->]. destruct (IH _ Er) as (a' & s0 & Hin & Hr).
    exists a', s0. split; [by right|done].
  - intros [= -> ->]. exists a, s. split; [by left|done].
Qed.

(** An element of the outputs was returned by one of the calls. *)
Lemma sub_outputs_elem recipes text s outs s' x :
  sub_outputs recipes text s = (Py.Ok outs, s') ->
  x ∈ concat outs ->
  exists a s0 out s1,
    a ∈ recipes /\ Augmenter_augment a text s0 = (Py.Ok out, s1) /\ x ∈ out.
Proof.
  revert s outs. induction recipes as [|a recipes IH]; intros s outs; cbn.
  - unfold mret, run_ret. intros [= <- <-]. cbn. by intros ?%elem_of_nil.
  - unfold mbind, run_bind, mret, run_ret.
    destruct (Augmenter_augment a text s) as [[o|e0] s1] eqn:Ea; [|discriminate].
    destruct (sub_outputs recipes text s1) as [[outs'|e1] s2] eqn:Er; [|discriminate].
    intros [= <- <-]. cbn. rewrite elem_of_app. intros [Hx|Hx].
    + exists a, s, o, s1. split; [by left|done].
    + destruct (IH _ _ Er Hx) as (a' & s0 & out & s3 & Hin & Hr & Hxo).
      exists a', s0, out, s3. split; [by right|done].
Qed.
End EasyAugment.

Section EasyResults.
Context (R : Random.source) (H : PySet.order).
Variable Augmenter_augment : Augmenter -> string -> Run (Random.state R) (list string).

(** What [augment] returns: a prefix, of the requested length at most,
    of a duplicate-free list. *)
Lemma augment_returns env kw e text s l s' :
  EasyDataAugmenter.init env kw = Py.Ok e ->
  EasyDataAugmenter.augment R H Augmenter_augment e text s = (Py.Ok l, s') ->
  exists outs s1,
    EasySpec.sub_outputs R Augmenter_augment
      (EasyDataAugmenter.sub_recipes e) text s = (Py.Ok outs, s1) /\
    l = take (Z.to_nat (EasyDataAugmenter.transformations_per_example e))
             (Random.shuffle R (PySet.to_list H (concat outs)) s1).1.
Proof.
  intros Hinit. apply Easy_init_inv in Hinit as (_ & Hpos & Htpe & _).
  rewrite augment_unfold.
  destruct (EasySpec.sub_outputs _ _ _ _ _) as [[outs|e0] s1]; [|discriminate].
  destruct (Random.shuffle R _ s1) as [x s2] eqn:Ex. intros [= <- <-].
  exists outs, s1. split; [done|].
  rewrite slice_to_positive by lia. by rewrite Ex.
Qed.

(** Every string [augment] returns was returned by one of the four
    sub-recipes. *)
Lemma augment_elem env kw e text s (l : list string) s' (x : string) :
  EasyDataAugmenter.init env kw = Py.Ok e ->
  EasyDataAugmenter.augment R H Augmenter_augment e text s = (Py.Ok l, s') ->
  x ∈ l ->
  exists (a : Augmenter) s0 (out : list string) s1,
    a ∈ EasyDataAugmenter.sub_recipes e /\
    Augmenter_augment a text s0 = (Py.Ok out, s1) /\ x ∈ out.
Proof.
  intros Hinit Ha Hx.
  destruct (augment_returns _ _ _ _ _ _ _ Hinit Ha) as (outs & s1 & Hs & ->).
  apply subseteq_take in Hx. rewrite shuffle_Permutation in Hx.
  apply PySet.to_list_elem in Hx. by eapply sub_outputs_elem.
Qed.
End EasyResults.

(** C3. For every input text and every configuration the constructor
    accepts, the list [EasyDataAugmenter.augment] returns has at most
    [transformations_per_example] elements and no two equal strings; the
    method returns unless one of the four sub-recipes raised, and then
    raises what that sub-recipe raised. *)
Theorem easy_augment_bounded_and_distinct
    (R : Random.source) (H : PySet.order)
    (Augmenter_augment : Augmenter -> string -> Run (Random.state R) (list string))
    (env : Env) (kw : kwargs) (e : EasyDataAugmenter.t)
    (text : string) (s : Random.state R) :
  EasyDataAugmenter.init env kw = Py.Ok e ->
  match EasyDataAugmenter.augment R H Augmenter_augment e text s with
  | (Py.Ok l, _) =>
      Z.of_nat (length l) <= EasyDataAugmenter.transformations_per_example e /\
      NoDup l
  | (Py.Raise err, s') =>
      exists a s0,
        a ∈ EasyDataAugmenter.sub_recipes e /\
        Augmenter_augment a text s0 = (Py.Raise err, s')
  end.
Proof.
  intros Hinit.
  destruct (EasyDataAugmenter.augment R H Augmenter_augment e text s)
    as [[l|err] s'] eqn:Ea.
  - destruct (augment_returns _ _ _ _ _ _ _ _ _ _ Hinit Ea) as (outs & s1 & _ & ->).
    apply Easy_init_inv in Hinit as (_ & Hpos & Htpe & _). split.
    + rewrite length_take. lia.
    + eapply sublist_NoDup; [|apply sublist_take].
      rewrite shuffle_Permutation. apply PySet.to_list_NoDup.
  - rewrite augment_unfold in Ea.
    destruct (EasySpec.sub_outputs _ _ _ _ _) as [[outs|e0] s1] eqn:Es.
    + by destruct (Random.shuffle R _ s1).
    + injection Ea as -> ->. by eapply sub_outputs_raise.
Qed.

Lemma easy_augment_bounded_and_distinct_witness :
  exists l,
    (EasyDataAugmenter.augment Lcg.source Orders.forward Stubs.canned
       Stubs.easy "the quick fox" 7).1 = Py.Ok l /\
    Z.of_nat (length l) <= 4 /\ NoDup l.
Proof.
  eexists. split; [vm_compute; reflexivity|].
  exact (easy_augment_bounded_and_distinct Lcg.source Orders.forward Stubs.canned
           Worlds.online (Kwargs None None) Stubs.easy "the quick fox" 7 eq_refl).
Defined.

(** C4. [EasyDataAugmenter] is built from exactly four sub-recipes, the
    WordNet synonym replacement, deletion, swap and synonym insertion
    recipes, each constructed with the same fraction and with
    [max(transformations_per_example // 4, 1)] as its output count; its
    [augment] is the pipeline that unions the outputs of the four,
    deduplicates, shuffles with the process-wide random source and
    truncates to [transformations_per_example]. *)
Theorem easy_is_four_recipes_then_pipeline
    (env : Env) (kw : kwargs) (e : EasyDataAugmenter.t) :
  EasyDataAugmenter.init env kw = Py.Ok e ->
  EasyDataAugmenter.sub_recipes e =
    [EasyDataAugmenter.synonym_replacement e; EasyDataAugmenter.random_deletion e;
     EasyDataAugmenter.random_swap e; EasyDataAugmenter.random_insertion e] /\
  (let each :=
     Kwargs (Some (EasyDataAugmenter.pct_words_to_swap e))
            (Some (Z.max (EasyDataAugmenter.transformations_per_example e / 4) 1)) in
   WordNetAugmenter.init env each = Py.Ok (EasyDataAugmenter.synonym_replacement e) /\
   DeletionAugmenter.init env each = Py.Ok (EasyDataAugmenter.random_deletion e) /\
   SwapAugmenter.init env each = Py.Ok (EasyDataAugmenter.random_swap e) /\
   SynonymInsertionAugmenter.init env each =
     Py.Ok (EasyDataAugmenter.random_insertion e)) /\
  Forall (fun a => transformations_per_example a =
                   Z.max (EasyDataAugmenter.transformations_per_example e / 4) 1)
         (EasyDataAugmenter.sub_recipes e) /\
  (forall (R : Random.source) (H : PySet.order)
          (Augmenter_augment : Augmenter -> string -> Run (Random.state R) (list string))
          (text : string) (s : Random.state R),
      EasyDataAugmenter.augment R H Augmenter_augment e text s =
      EasySpec.pipeline R H Augmenter_augment e text s).
Proof.
  intros Hinit. split; [reflexivity|].
  pose proof Hinit as Hinv. apply Easy_init_inv in Hinv as (Hp & Hpos & Htpe & Hpct & Hsub).
  rewrite Easy_init_ok in Hinit by (done || by apply Z.ltb_lt).
  injection Hinit as <-. cbn [EasyDataAugmenter.synonym_replacement
    EasyDataAugmenter.random_deletion EasyDataAugmenter.random_swap
    EasyDataAugmenter.random_insertion EasyDataAugmenter.pct_words_to_swap
    EasyDataAugmenter.transformations_per_example] in *.
  split; [|split].
  - cbv zeta. unfold WordNetAugmenter.init, DeletionAugmenter.init,
      SwapAugmenter.init, SynonymInsertionAugmenter.init.
    pose proof (n_aug_each_positive (tpe_in_effect env Easy kw)) as Hn.
    unfold EasyDataAugmenter.n_aug_each in Hn.
    rewrite !Augmenter_init_ok by done. done.
  - rewrite Hsub. by repeat constructor.
  - intros R H sub text s. rewrite augment_unfold.
    unfold EasySpec.pipeline, EasySpec.deduplicate, EasySpec.union,
      EasySpec.truncate, mbind, run_bind, mret, run_ret, random_shuffle.
    destruct (EasySpec.sub_outputs _ _ _ _ _) as [[outs|e0] s1]; [|done].
    destruct (Random.shuffle R _ s1) as [x s2].
    cbn [EasyDataAugmenter.transformations_per_example].
    by rewrite slice_to_positive.
Qed.

Lemma easy_is_four_recipes_then_pipeline_witness :
  map transformation_of (EasyDataAugmenter.sub_recipes Stubs.easy) =
    [WordSwapWordNet; WordDeletion; WordInnerSwapRandom; WordInsertionRandomSynonym] /\
  Forall (fun a => transformations_per_example a = 1)
         (EasyDataAugmenter.sub_recipes Stubs.easy) /\
  EasyDataAugmenter.augment Lcg.source Orders.forward Stubs.canned
    Stubs.easy "the quick fox" 7 =
  EasySpec.pipeline Lcg.source Orders.forward Stubs.canned
    Stubs.easy "the quick fox" 7.
Proof.
  split; [reflexivity|].
  pose proof (easy_is_four_recipes_then_pipeline Worlds.online (Kwargs None None)
                Stubs.easy eq_refl) as (_ & _ & Heach & Hpipe).
  split; [exact Heach|apply Hpipe].
Defined.




(** The other direction: when nothing is cut off, two runs from the same
    state that iterate the set of collected strings in different orders
    return different lists, whatever the generator. *)
Lemma different_set_order_different_list
    (R : Random.source) (H1 H2 : PySet.order)
    (Augmenter_augment : Augmenter -> string -> Run (Random.state R) (list string))
    (e : EasyDataAugmenter.t) (text : string) (s s1 : Random.state R)
    (outs : list (list string)) :
  EasySpec.sub_outputs R Augmenter_augment
    (EasyDataAugmenter.sub_recipes e) text s = (Py.Ok outs, s1) ->
  PySet.to_list H1 (concat outs) <> PySet.to_list H2 (concat outs) ->
  Z.of_nat (length (PySet.to_list H1 (concat outs))) <=
    EasyDataAugmenter.transformations_per_example e ->
  (EasyDataAugmenter.augment R H1 Augmenter_augment e text s).1 <>
  (EasyDataAugmenter.augment R H2 Augmenter_augment e text s).1.
Proof.
  intros Hs Hne Hlen.
  assert (PySet.to_list H1 (concat outs) ≡ₚ PySet.to_list H2 (concat outs)) as Hp.
  { apply NoDup_Permutation; [apply PySet.to_list_NoDup..|].
    intros x. by rewrite !PySet.to_list_elem. }
  assert (0 < EasyDataAugmenter.transformations_per_example e) as Hpos.
  { destruct (PySet.to_list H1 (concat outs)) as [|x l] eqn:E1; [|cbn in Hlen; lia].
    symmetry in Hp. apply Permutation_nil_r in Hp. congruence. }
  rewrite !augment_unfold, Hs.
  destruct (Random.shuffle R (PySet.to_list H1 _) s1) as [x1 s2] eqn:Ex1.
  destruct (Random.shuffle R (PySet.to_list H2 _) s1) as [x2 s3] eqn:Ex2.
  cbn [fst]. rewrite !slice_to_positive by done.
  pose proof (shuffle_Permutation R (PySet.to_list H1 (concat outs)) s1) as Hx1.
  pose proof (shuffle_Permutation R (PySet.to_list H2 (concat outs)) s1) as Hx2.
  rewrite Ex1 in Hx1. rewrite Ex2 in Hx2. cbn [fst] in Hx1, Hx2.
  rewrite !take_ge by (rewrite ?Hx1, ?Hx2, <- ?Hp; lia).
  intros [= E]. apply Hne. apply (shuffle_inj R _ _ s1).
  - by rewrite Hp.
  - by rewrite Ex1, Ex2.
Qed.




(** ** The constraint chain *)

Section ChainFacts.
Variable filter_indices : constraint -> string -> gset nat.
Variable check_external : constraint -> string -> string -> bool.

Local Abbreviation check := (Chain.check check_external).
Local Abbreviation is_acceptable := (Chain.is_acceptable check_external).
Local Abbreviation eligible_indices := (Chain.eligible_indices filter_indices).

Lemma is_acceptable_forallb cs original candidate :
  is_acceptable cs original candidate =
  forallb (fun c => check c original candidate) (Chain.post_transformation cs).
Proof.
  induction cs as [|c cs IH]; [done|].
  unfold Chain.post_transformation in *. cbn [Chain.is_acceptable].
  destruct (is_pre_transformation c) eqn:Ec.
  - rewrite filter_cons_False by congruence. exact IH.
  - rewrite filter_cons_True by done. cbn [forallb]. rewrite <- IH.
    by destruct (Chain.check check_external c original candidate).
Qed.

Lemma is_acceptable_iff cs original candidate :
  is_acceptable cs original candidate = true <->
  forall c, c ∈ cs -> is_pre_transformation c = false ->
            check c original candidate = true.
Proof.
  induction cs as [|c cs IH]; cbn [Chain.is_acceptable].
  - split; [by intros _ c ?%elem_of_nil|done].
  - destruct (is_pre_transformation c) eqn:Ec.
    + rewrite IH. split.
      * intros Hall c' [->|Hin]%elem_of_cons Hpost; [congruence|by apply Hall].
      * intros Hall c' Hin. apply Hall. by right.
    + destruct (check c original candidate) eqn:Ek.
      * rewrite IH. split.
        -- intros Hall c' [->|Hin]%elem_of_cons Hpost; [done|by apply Hall].
        -- intros Hall c' Hin. apply Hall. by right.
      * split; [done|]. intros Hall.
        rewrite <- Ek. apply Hall; [by left|done].
Qed.

Lemma is_acceptable_Permutation cs cs' original candidate :
  cs ≡ₚ cs' ->
  is_acceptable cs original candidate = is_acceptable cs' original candidate.
Proof.
  induction 1 as [|c cs cs' Hp IH|c1 c2 cs|cs1 cs2 cs3 Hp1 IH1 Hp2 IH2];
    cbn [Chain.is_acceptable].
  - done.
  - by rewrite IH.
  - destruct (is_pre_transformation c1), (is_pre_transformation c2),
      (check c1 original candidate), (check c2 original candidate); done.
  - by rewrite IH1.
Qed.

Lemma eligible_indices_Permutation cs cs' text positions :
  cs ≡ₚ cs' ->
  eligible_indices cs text positions = eligible_indices cs' text positions.
Proof.
  induction 1 as [|c cs cs' Hp IH|c1 c2 cs|cs1 cs2 cs3 Hp1 IH1 Hp2 IH2];
    cbn [Chain.eligible_indices].
  - done.
  - by rewrite IH.
  - destruct (is_pre_transformation c1), (is_pre_transformation c2); [|done..].
    by rewrite !(assoc_L (∩)), (comm_L (∩) (filter_indices c1 text)).
  - by rewrite IH1.
Qed.
End ChainFacts.

(** C7. For every constraint list, original text and candidate, the
    decision of the chain is the conjunction of the decisions of the
    constraints that judge candidates, and reordering the list changes
    neither that decision nor the set of eligible positions. *)
Theorem chain_is_order_free_conjunction
    (filter_indices : constraint -> string -> gset nat)
    (check_external : constraint -> string -> string -> bool)
    (cs : list constraint) (original candidate : string) :
  Chain.is_acceptable check_external cs original candidate =
    forallb (fun c => Chain.check check_external c original candidate)
            (Chain.post_transformation cs) /\
  (Chain.is_acceptable check_external cs original candidate = true <->
   forall c, c ∈ cs -> is_pre_transformation c = false ->
             Chain.check check_external c original candidate = true) /\
  (forall cs',
      cs ≡ₚ cs' ->
      Chain.is_acceptable check_external cs' original candidate =
        Chain.is_acceptable check_external cs original candidate /\
      forall positions,
        Chain.eligible_indices filter_indices cs' original positions =
        Chain.eligible_indices filter_indices cs original positions).
Proof.
  split; [apply is_acceptable_forallb|].
  split; [apply is_acceptable_iff|].
  intros cs' Hp. split.
  - symmetry. by apply is_acceptable_Permutation.
  - intros positions. symmetry. by apply eligible_indices_Permutation.
Qed.

Lemma chain_is_order_free_conjunction_witness :
  let pruthi :=
    [MinWordLength 4; StopwordModification None; MaxWordsPerturbed 1; RepeatModification] in
  Chain.is_acceptable ChainStubs.check_external (reverse pruthi)
    "the quick fox" "the qiuck fox" =
  Chain.is_acceptable ChainStubs.check_external pruthi
    "the quick fox" "the qiuck fox" /\
  Chain.eligible_indices ChainStubs.filter_indices (reverse pruthi)
    "the quick fox" {[0%nat; 1%nat; 2%nat]} =
  Chain.eligible_indices ChainStubs.filter_indices pruthi
    "the quick fox" {[0%nat; 1%nat; 2%nat]}.
Proof.
  intros pruthi.
  destruct (chain_is_order_free_conjunction ChainStubs.filter_indices
              ChainStubs.check_external pruthi "the quick fox" "the qiuck fox")
    as (_ & _ & Horder).
  destruct (Horder (reverse pruthi)) as [Haccept Heligible].
  - symmetry. apply reverse_Permutation.
  - split; [exact Haccept|apply Heligible].
Defined.

(** ** The driver *)

Section DriverFacts.
Context (R : Random.source).
Variable filter_indices : constraint -> string -> gset nat.
Variable check_external : constraint -> string -> string -> bool.
Variable apply_transformation :
  transformation -> string -> gset nat -> Run (Random.state R) (list string).
Variable word_positions : string -> gset nat.
Variable words_to_alter : Py.float -> string -> nat.

Local Abbreviation accepts a original :=
  (fun c => Chain.is_acceptable check_external (constraints_of a) original c = true).
Local Abbreviation perturb :=
  (Driver.perturb R filter_indices check_external apply_transformation word_positions).
Local Abbreviation examples :=
  (Driver.examples R filter_indices check_external apply_transformation
     word_positions words_to_alter).
Local Abbreviation augment :=
  (Driver.augment R filter_indices check_external apply_transformation
     word_positions words_to_alter).

Lemma random_choice_elem x l s y s' :
  Driver.random_choice R x l s = (Py.Ok y, s') -> y ∈ x :: l.
Proof.
  unfold Driver.random_choice.
  destruct (Random.randbelow R s (S (length l))) as [j s1] eqn:Ej.
  intros [= <- <-].
  pose proof (Random.randbelow_lt R s (S (length l)) ltac:(lia)) as Hlt.
  rewrite Ej in Hlt. cbn [fst] in Hlt.
  apply list_elem_of_In. apply (nth_In (x :: l) x). cbn [length]. lia.
Qed.

(** A text that [perturb] returns went through the chain. *)
Lemma perturb_accepted a original rounds current accepted s x s' :
  (forall y, accepted = Some y -> accepts a original y) ->
  perturb a original current accepted rounds s = (Py.Ok (Some x), s') ->
  accepts a original x.
Proof.
  revert current accepted s.
  induction rounds as [|rounds IH]; intros current accepted s Hacc; cbn [Driver.perturb].
  - unfold mret, run_ret. intros [= -> <-]. by apply Hacc.
  - unfold mbind, run_bind.
    destruct (apply_transformation _ current _ s) as [[cands|e] s1]; [|discriminate].
    destruct (filter _ cands) as [|c cs] eqn:Ef.
    + unfold mret, run_ret. intros [= -> <-]. by apply Hacc.
    + destruct (Driver.random_choice R c cs s1) as [[next|e] s2] eqn:Ec; [|discriminate].
      apply IH. intros y [= <-].
      apply random_choice_elem in Ec. rewrite <- Ef in Ec.
      by apply list_elem_of_filter in Ec as [Hok _].
Qed.

Lemma examples_accepted a text n s outs s' x :
  examples a text n s = (Py.Ok outs, s') -> x ∈ outs -> accepts a text x.
Proof.
  revert s outs. induction n as [|n IH]; intros s outs; cbn [Driver.examples].
  - unfold mret, run_ret. intros [= <- <-]. by intros ?%elem_of_nil.
  - unfold mbind, run_bind, mret, run_ret.
    destruct (perturb a text text None _ s) as [[o|e] s1] eqn:Ep; [|discriminate].
    destruct (examples a text n s1) as [[rest|e] s2] eqn:Er; [|discriminate].
    intros [= <- <-]. rewrite elem_of_app. intros [Hx|Hx]; [|by eapply IH].
    destruct o as [y|]; cbn in Hx; [|by apply elem_of_nil in Hx].
    apply list_elem_of_singleton in Hx as ->.
    eapply perturb_accepted; [|exact Ep]. discriminate.
Qed.

Lemma augment_accepted a text s outs s' x :
  augment a text s = (Py.Ok outs, s') -> x ∈ outs -> accepts a text x.
Proof.
  unfold Driver.augment, mbind, run_bind, mret, run_ret.
  destruct (examples a text _ s) as [[l|e] s1] eqn:El; [|discriminate].
  intros [= <- <-] Hx. eapply examples_accepted; [exact El|].
  eapply elem_of_remove_dups, subseteq_take, Hx.
Qed.
End DriverFacts.

(** ** The edit distance *)

Lemma levenshtein_empty_l (t : string) : levenshtein "" t = String.length t.
Proof. by destruct t. Qed.

Lemma levenshtein_empty_r (s : string) : levenshtein s "" = String.length s.
Proof. by destruct s. Qed.

Lemma levenshtein_same (s : string) : levenshtein s s = 0%nat.
Proof.
  induction s as [|a s IH]; [done|].
  cbn [levenshtein]. rewrite IH, Ascii.eqb_refl. lia.
Qed.

Lemma levenshtein_cons a s b t :
  levenshtein (String a s) (String b t) =
  Nat.min (S (levenshtein s (String b t)))
    (Nat.min (S (levenshtein (String a s) t))
       ((if Ascii.eqb a b then 0 else 1) + levenshtein s t))%nat.
Proof. reflexivity. Qed.

(** The distance is at least the difference of the lengths and at most
    the greater length. *)
Lemma levenshtein_length_bounds (s t : string) :
  (String.length t <= String.length s + levenshtein s t)%nat /\
  (String.length s <= String.length t + levenshtein s t)%nat /\
  (levenshtein s t <= Nat.max (String.length s) (String.length t))%nat.
Proof.
  revert t. induction s as [|a s IHs]; intros t.
  - rewrite levenshtein_empty_l. cbn. lia.
  - induction t as [|b t IHt].
    + rewrite levenshtein_empty_r. cbn. lia.
    + rewrite levenshtein_cons.
      pose proof (IHs (String b t)) as H1. pose proof (IHs t) as H2.
      cbn [String.length] in *.
      destruct (Ascii.eqb a b); lia.
Qed.

Example levenshtein_kitten_sitting : levenshtein "kitten" "sitting" = 3%nat.
Proof. reflexivity. Qed.

(** C8. Every text the driver returns for a [DeepWordBugAugmenter],
    whichever of its two transformations it was built with, is within
    character-level Levenshtein distance 30 of the input text. *)
Theorem deep_word_bug_within_edit_distance
    (R : Random.source)
    (filter_indices : constraint -> string -> gset nat)
    (check_external : constraint -> string -> string -> bool)
    (apply_transformation :
       transformation -> string -> gset nat -> Run (Random.state R) (list string))
    (word_positions : string -> gset nat)
    (words_to_alter : Py.float -> string -> nat)
    (env : Env) (use_all_transformations : option bool) (kw : kwargs)
    (a : Augmenter) (text : string) (s s' : Random.state R)
    (outs : list string) (x : string) :
  DeepWordBugAugmenter.init env use_all_transformations kw = Py.Ok a ->
  Driver.augment R filter_indices check_external apply_transformation
    word_positions words_to_alter a text s = (Py.Ok outs, s') ->
  x ∈ outs ->
  (levenshtein text x <= 30)%nat.
Proof.
  intros Hinit Haug Hx.
  pose proof (augment_accepted _ _ _ _ _ _ _ _ _ _ _ _ Haug Hx) as Hacc.
  cbn beta in Hacc. rewrite is_acceptable_iff in Hacc.
  unfold DeepWordBugAugmenter.init in Hinit.
  apply Augmenter_init_inv in Hinit as (_ & Hcs & _). rewrite Hcs in Hacc.
  specialize (Hacc (LevenshteinEditDistance 30)). cbn in Hacc.
  apply Z.leb_le in Hacc; [lia| |done]. set_solver.
Qed.

Example far_candidate_is_rejected :
  levenshtein "fox" ("fox" +:+ ChainStubs.shout) = 40%nat /\
  Chain.check ChainStubs.check_external (LevenshteinEditDistance 30)
    "fox" ("fox" +:+ ChainStubs.shout) = false.
Proof. split; by vm_compute. Qed.

Lemma deep_word_bug_within_edit_distance_witness :
  exists a outs s',
    DeepWordBugAugmenter.init Worlds.online None (Kwargs None (Some 3)) = Py.Ok a /\
    Driver.augment Lcg.source ChainStubs.filter_indices ChainStubs.check_external
      ChainStubs.apply_transformation ChainStubs.word_positions
      ChainStubs.words_to_alter a "fox" 7 = (Py.Ok outs, s') /\
    "cox" ∈ outs /\
    (levenshtein "fox" "cox" <= 30)%nat.
Proof.
  eexists; exists ["cox"; "box"]; eexists.
  split; [reflexivity|]. split; [vm_compute; reflexivity|].
  split; [by left|].
  eapply (deep_word_bug_within_edit_distance Lcg.source ChainStubs.filter_indices
            ChainStubs.check_external ChainStubs.apply_transformation
            ChainStubs.word_positions ChainStubs.words_to_alter
            Worlds.online None (Kwargs None (Some 3)) _ "fox" 7 _ ["cox"; "box"]).
  - reflexivity.
  - vm_compute. reflexivity.
  - by left.
Defined.

(** * Further properties of the recipes *)

(** ** The aggregate recipe's [augment], from the outputs of the sub-recipes *)

Section EasyOutputs.
Context (R : Random.source) (H : PySet.order).
Variable Augmenter_augment : Augmenter -> string -> Run (Random.state R) (list string).

(** The set iterates as many strings as there are distinct ones. *)
Lemma to_list_Permutation (l : list string) : PySet.to_list H l ≡ₚ remove_dups l.
Proof.
  apply NoDup_Permutation; [apply PySet.to_list_NoDup|apply NoDup_remove_dups|].
  intros x. by rewrite PySet.to_list_elem, elem_of_remove_dups.
Qed.

(** Once the four calls have returned, so does [augment]. *)
Lemma augment_of_outputs env kw e text s outs s1 :
  EasyDataAugmenter.init env kw = Py.Ok e ->
  EasySpec.sub_outputs R Augmenter_augment
    (EasyDataAugmenter.sub_recipes e) text s = (Py.Ok outs, s1) ->
  EasyDataAugmenter.augment R H Augmenter_augment e text s =
  (Py.Ok (take (Z.to_nat (EasyDataAugmenter.transformations_per_example e))
               (Random.shuffle R (PySet.to_list H (concat outs)) s1).1),
   (Random.shuffle R (PySet.to_list H (concat outs)) s1).2).
Proof.
  intros Hinit Hs. apply Easy_init_inv in Hinit as (_ & Hpos & Htpe & _).
  rewrite augment_unfold, Hs.
  destruct (Random.shuffle R _ s1) as [x s2]. cbn [fst snd].
  rewrite slice_to_positive by lia. done.
Qed.

(** Each output was returned by the sub-recipe at the same position. *)
Lemma sub_outputs_Forall2 recipes text s outs s' :
  EasySpec.sub_outputs R Augmenter_augment recipes text s = (Py.Ok outs, s') ->
  Forall2 (fun a out => exists s0 s1, Augmenter_augment a text s0 = (Py.Ok out, s1))
          recipes outs.
Proof.
  revert s outs. induction recipes as [|a recipes IH]; intros s outs; cbn.
  - unfold mret, run_ret. intros [= <- <-]. constructor.
  - unfold mbind, run_bind, mret, run_ret.
    destruct (Augmenter_augment a text s) as [[o|e0] s1] eqn:Ea; [|discriminate].
    destruct (EasySpec.sub_outputs _ _ recipes text s1) as [[outs'|e1] s2] eqn:Er;
      [|discriminate].
    intros [= <- <-]. constructor; [by exists s, s1|by eapply IH].
Qed.
End EasyOutputs.

Section EasyCounts.
Context (R : Random.source) (H : PySet.order).
Variable Augmenter_augment : Augmenter -> string -> Run (Random.state R) (list string).

Lemma elem_of_concat (x : string) (ls : list (list string)) :
  x ∈ concat ls <-> exists l, l ∈ ls /\ x ∈ l.
Proof.
  induction ls as [|l ls IH]; cbn [concat].
  - split; [by intros ?%elem_of_nil|by intros (l & ?%elem_of_nil & _)].
  - rewrite elem_of_app, IH. split.
    + intros [Hx|(l' & Hl & Hx)]; [exists l; split; [by left|done]|].
      exists l'. split; [by right|done].
    + intros (l' & [->|Hl]%elem_of_cons & Hx); [by left|right; by exists l'].
Qed.

Lemma remove_dups_length_le (l : list string) :
  (length (remove_dups l) <= length l)%nat.
Proof.
  apply submseteq_length, NoDup_submseteq; [apply NoDup_remove_dups|].
  intros x. by rewrite elem_of_remove_dups.
Qed.

(** What is shuffled is a rearrangement of the distinct strings. *)
Lemma shuffled_Permutation (l : list string) (s : Random.state R) :
  (Random.shuffle R (PySet.to_list H l) s).1 ≡ₚ remove_dups l.
Proof. by rewrite shuffle_Permutation, to_list_Permutation. Qed.

(** The four outputs of an aggregate recipe whose sub-recipes keep to
    their output count hold at most four times that count. *)
Lemma outputs_within_budget env kw e text s outs s1 :
  EasyDataAugmenter.init env kw = Py.Ok e ->
  (forall a s0 out s2,
      a ∈ EasyDataAugmenter.sub_recipes e ->
      Augmenter_augment a text s0 = (Py.Ok out, s2) ->
      Z.of_nat (length out) <= transformations_per_example a) ->
  EasySpec.sub_outputs R Augmenter_augment
    (EasyDataAugmenter.sub_recipes e) text s = (Py.Ok outs, s1) ->
  Z.of_nat (length (concat outs)) <=
    4 * Z.max (EasyDataAugmenter.transformations_per_example e / 4) 1.
Proof.
  intros Hinit Hkeep Hs.
  pose proof Hinit as Hinv.
  apply Easy_init_inv in Hinv as (_ & _ & Htpe & _ & Hsub).
  assert (Forall (fun a => transformations_per_example a =
                           Z.max (EasyDataAugmenter.transformations_per_example e / 4) 1)
                 (EasyDataAugmenter.sub_recipes e)) as Heach.
  { rewrite Hsub, Htpe. by repeat constructor. }
  apply sub_outputs_Forall2 in Hs.
  assert (Forall2 (fun a out =>
                     Z.of_nat (length out) <=
                     Z.max (EasyDataAugmenter.transformations_per_example e / 4) 1)
                  (EasyDataAugmenter.sub_recipes e) outs) as Hlen.
  { clear Hsub.
    induction Hs as [|a out recipes outs' (s0 & s2 & Ha) Hs IH]; [constructor|].
    apply Forall_cons in Heach as [Ha' Heach].
    constructor.
    - rewrite <- Ha'. eapply Hkeep; [by left|exact Ha].
    - apply IH; [|done]. intros a0 s3 out0 s4 Hin. apply Hkeep. by right. }
  unfold EasyDataAugmenter.sub_recipes in Hlen.
  apply Forall2_cons_inv_l in Hlen as (o1 & k1 & H1 & Hlen & ->).
  apply Forall2_cons_inv_l in Hlen as (o2 & k2 & H2 & Hlen & ->).
  apply Forall2_cons_inv_l in Hlen as (o3 & k3 & H3 & Hlen & ->).
  apply Forall2_cons_inv_l in Hlen as (o4 & k4 & H4 & Hlen & ->).
  apply Forall2_nil_inv_l in Hlen as ->.
  cbn [concat]. rewrite !length_app, length_nil. lia.
Qed.
End EasyCounts.

(** X1. Once its four sub-recipes have returned, [augment] returns, and
    the list it returns has exactly min(transformations_per_example,
    number of distinct strings the sub-recipes returned) elements. *)
Theorem easy_augment_length
    (R : Random.source) (H : PySet.order)
    (Augmenter_augment : Augmenter -> string -> Run (Random.state R) (list string))
    (env : Env) (kw : kwargs) (e : EasyDataAugmenter.t)
    (text : string) (s s1 : Random.state R) (outs : list (list string)) :
  EasyDataAugmenter.init env kw = Py.Ok e ->
  EasySpec.sub_outputs R Augmenter_augment
    (EasyDataAugmenter.sub_recipes e) text s = (Py.Ok outs, s1) ->
  exists l s',
    EasyDataAugmenter.augment R H Augmenter_augment e text s = (Py.Ok l, s') /\
    length l =
      (Z.to_nat (EasyDataAugmenter.transformations_per_example e)
         `min` length (remove_dups (concat outs)))%nat.
Proof.
  intros Hinit Hs. eexists _, _.
  split; [by eapply augment_of_outputs|].
  by rewrite length_take, shuffled_Permutation.
Qed.

Lemma easy_augment_length_witness :
  exists l s',
    EasyDataAugmenter.augment Lcg.source Orders.backward Stubs.canned
      Stubs.easy "the quick fox" 7 = (Py.Ok l, s') /\
    length l = 4%nat.
Proof.
  exact (easy_augment_length Lcg.source Orders.backward Stubs.canned
           Worlds.online (Kwargs None None) Stubs.easy "the quick fox" 7 7
           _ eq_refl eq_refl).
Defined.

(** X2. [augment] returns only strings that one of the sub-recipes
    returned; and when the sub-recipes returned at most
    transformations_per_example distinct strings, it returns every one
    of them, each once. *)
Theorem easy_augment_elements
    (R : Random.source) (H : PySet.order)
    (Augmenter_augment : Augmenter -> string -> Run (Random.state R) (list string))
    (env : Env) (kw : kwargs) (e : EasyDataAugmenter.t)
    (text : string) (s s1 : Random.state R) (outs : list (list string)) :
  EasyDataAugmenter.init env kw = Py.Ok e ->
  EasySpec.sub_outputs R Augmenter_augment
    (EasyDataAugmenter.sub_recipes e) text s = (Py.Ok outs, s1) ->
  exists l s',
    EasyDataAugmenter.augment R H Augmenter_augment e text s = (Py.Ok l, s') /\
    (forall x, x ∈ l -> exists out, out ∈ outs /\ x ∈ out) /\
    ((length (remove_dups (concat outs)) <=
        Z.to_nat (EasyDataAugmenter.transformations_per_example e))%nat ->
     l ≡ₚ remove_dups (concat outs) /\
     forall out x, out ∈ outs -> x ∈ out -> x ∈ l).
Proof.
  intros Hinit Hs. eexists _, _.
  split; [by eapply augment_of_outputs|]. split.
  - intros x Hx%subseteq_take. rewrite shuffled_Permutation in Hx.
    by apply elem_of_remove_dups, elem_of_concat in Hx.
  - intros Hfit.
    assert (take (Z.to_nat (EasyDataAugmenter.transformations_per_example e))
              (Random.shuffle R (PySet.to_list H (concat outs)) s1).1
            ≡ₚ remove_dups (concat outs)) as Hp.
    { rewrite take_ge; [apply shuffled_Permutation|].
      by rewrite shuffled_Permutation. }
    split; [done|]. intros out x Hout Hx. rewrite Hp.
    apply elem_of_remove_dups, elem_of_concat. by exists out.
Qed.

Lemma easy_augment_elements_witness :
  exists l s',
    EasyDataAugmenter.augment Lcg.source Orders.forward Stubs.pair
      Stubs.easy "the quick fox" 7 = (Py.Ok l, s') /\
    l ≡ₚ ["the fast fox"; "quick fox"].
Proof.
  destruct (easy_augment_elements Lcg.source Orders.forward Stubs.pair
              Worlds.online (Kwargs None None) Stubs.easy "the quick fox" 7 7
              _ eq_refl eq_refl) as (l & s' & Ha & _ & Hall).
  exists l, s'. split; [exact Ha|].
  apply Hall. vm_compute. lia.
Defined.

(** X3. Two runs of [augment] whose sub-recipes returned the same strings
    (in whatever order and multiplicity), at most
    transformations_per_example distinct ones, return the same strings
    up to order, whatever the generators, their states and the
    iteration orders of the two sets. *)
Theorem easy_runs_agree_up_to_order
    (R1 R2 : Random.source) (H1 H2 : PySet.order)
    (sub1 : Augmenter -> string -> Run (Random.state R1) (list string))
    (sub2 : Augmenter -> string -> Run (Random.state R2) (list string))
    (env : Env) (kw : kwargs) (e : EasyDataAugmenter.t) (text : string)
    (s1 t1 : Random.state R1) (s2 t2 : Random.state R2)
    (outs1 outs2 : list (list string)) :
  EasyDataAugmenter.init env kw = Py.Ok e ->
  EasySpec.sub_outputs R1 sub1 (EasyDataAugmenter.sub_recipes e) text s1 =
    (Py.Ok outs1, t1) ->
  EasySpec.sub_outputs R2 sub2 (EasyDataAugmenter.sub_recipes e) text s2 =
    (Py.Ok outs2, t2) ->
  (forall x, x ∈ concat outs1 <-> x ∈ concat outs2) ->
  (length (remove_dups (concat outs1)) <=
     Z.to_nat (EasyDataAugmenter.transformations_per_example e))%nat ->
  exists l1 l2,
    (EasyDataAugmenter.augment R1 H1 sub1 e text s1).1 = Py.Ok l1 /\
    (EasyDataAugmenter.augment R2 H2 sub2 e text s2).1 = Py.Ok l2 /\
    l1 ≡ₚ l2.
Proof.
  intros Hinit Hs1 Hs2 Hsame Hfit.
  assert (remove_dups (concat outs1) ≡ₚ remove_dups (concat outs2)) as Hp.
  { apply NoDup_Permutation; [apply NoDup_remove_dups..|].
    intros x. by rewrite !elem_of_remove_dups. }
  rewrite (augment_of_outputs R1 H1 sub1 env kw e text s1 outs1 t1) by done.
  rewrite (augment_of_outputs R2 H2 sub2 env kw e text s2 outs2 t2) by done.
  eexists _, _. split; [reflexivity|]. split; [reflexivity|].
  rewrite !take_ge.
  - by rewrite !shuffled_Permutation.
  - by rewrite shuffled_Permutation, <- Hp.
  - by rewrite shuffled_Permutation.
Qed.

Lemma easy_runs_agree_up_to_order_witness :
  exists l1 l2,
    (EasyDataAugmenter.augment Lcg.source Orders.forward Stubs.pair
       Stubs.easy "the quick fox" 7).1 = Py.Ok l1 /\
    (EasyDataAugmenter.augment Lcg.source Orders.backward Stubs.pair
       Stubs.easy "the quick fox" 2024).1 = Py.Ok l2 /\
    l1 ≡ₚ l2.
Proof.
  apply (easy_runs_agree_up_to_order Lcg.source Lcg.source Orders.forward
           Orders.backward Stubs.pair Stubs.pair Worlds.online (Kwargs None None)
           Stubs.easy "the quick fox" 7 7 2024 2024
           [["the fast fox"]; ["quick fox"]; []; []]
           [["the fast fox"]; ["quick fox"]; []; []]);
    [reflexivity|reflexivity|reflexivity|done|vm_compute; lia].
Defined.

(** X4. When each sub-recipe returns at most the number of outputs it was
    configured with, [augment] returns at most
    4 * max(transformations_per_example // 4, 1) strings.  So from
    transformations_per_example = 4 on, the final slice cuts nothing off
    (every distinct string the sub-recipes returned is in the result),
    and when transformations_per_example is not a multiple of 4 the
    result is shorter than requested. *)
Theorem easy_augment_within_budget
    (R : Random.source) (H : PySet.order)
    (Augmenter_augment : Augmenter -> string -> Run (Random.state R) (list string))
    (env : Env) (kw : kwargs) (e : EasyDataAugmenter.t)
    (text : string) (s s1 : Random.state R) (outs : list (list string)) :
  EasyDataAugmenter.init env kw = Py.Ok e ->
  (forall a s0 out s2,
      a ∈ EasyDataAugmenter.sub_recipes e ->
      Augmenter_augment a text s0 = (Py.Ok out, s2) ->
      Z.of_nat (length out) <= transformations_per_example a) ->
  EasySpec.sub_outputs R Augmenter_augment
    (EasyDataAugmenter.sub_recipes e) text s = (Py.Ok outs, s1) ->
  exists l s',
    EasyDataAugmenter.augment R H Augmenter_augment e text s = (Py.Ok l, s') /\
    Z.of_nat (length l) <=
      4 * Z.max (EasyDataAugmenter.transformations_per_example e / 4) 1 /\
    (4 <= EasyDataAugmenter.transformations_per_example e ->
     l ≡ₚ remove_dups (concat outs) /\
     (EasyDataAugmenter.transformations_per_example e mod 4 <> 0 ->
      Z.of_nat (length l) < EasyDataAugmenter.transformations_per_example e)).
Proof.
  intros Hinit Hkeep Hs.
  pose proof (outputs_within_budget R Augmenter_augment env kw e text s outs s1
                Hinit Hkeep Hs) as Hbudget.
  pose proof (remove_dups_length_le (concat outs)) as Hdup.
  eexists _, _. split; [by eapply augment_of_outputs|].
  set (n := EasyDataAugmenter.transformations_per_example e) in *.
  split.
  - rewrite length_take, shuffled_Permutation. lia.
  - intros Hfour.
    assert (n = 4 * (n / 4) + n mod 4) as Hdiv by (apply Z.div_mod; lia).
    pose proof (Z.mod_pos_bound n 4 ltac:(lia)) as Hmod.
    assert (Z.max (n / 4) 1 = n / 4) as Hmax by lia.
    rewrite Hmax in Hbudget.
    rewrite take_ge by (rewrite shuffled_Permutation; lia).
    split; [apply shuffled_Permutation|].
    intros Hrem. rewrite shuffled_Permutation. lia.
Qed.

Lemma easy_augment_within_budget_witness :
  exists e l s',
    EasyDataAugmenter.init Worlds.online (Kwargs None (Some 6)) = Py.Ok e /\
    EasyDataAugmenter.augment Lcg.source Orders.forward Stubs.pair
      e "the quick fox" 7 = (Py.Ok l, s') /\
    Z.of_nat (length l) <= 4 /\ Z.of_nat (length l) < 6.
Proof.
  eexists. 
  destruct (easy_augment_within_budget Lcg.source Orders.forward Stubs.pair
              Worlds.online (Kwargs None (Some 6)) _ "the quick fox" 7 7
              [["the fast fox"]; ["quick fox"]; []; []] eq_refl)
    as (l & s' & Ha & Hlen & Hcut).
  - intros a s0 out s2 Hin [= <- _].
    repeat (apply elem_of_cons in Hin as [->|Hin]; [by vm_compute|]).
    by apply elem_of_nil in Hin.
  - reflexivity.
  - exists l, s'. split; [reflexivity|]. split; [exact Ha|].
    split; [exact Hlen|]. apply Hcut; [by vm_compute|by vm_compute].
Defined.

(** ** The constructors *)



(** X6. [PruthiAugmenter] does not check [max_num_word_swaps]: whether
    construction succeeds never depends on it, and a constructed recipe
    carries exactly one MaxWordsPerturbed constraint, with the value it
    was given (1 when none was), be it zero or negative. *)
Theorem pruthi_budget_is_not_validated
    (env : Env) (n n' : option Z) (kw : kwargs) :
  Py.is_Ok (PruthiAugmenter.init env n kw) =
    Py.is_Ok (PruthiAugmenter.init env n' kw) /\
  (forall a,
      PruthiAugmenter.init env n kw = Py.Ok a ->
      MaxWordsPerturbed (default 1 n) ∈ constraints_of a /\
      forall k, MaxWordsPerturbed k ∈ constraints_of a -> k = default 1 n).
Proof.
  split.
  - unfold PruthiAugmenter.init, Augmenter_init.
    destruct (pct_in_range _); [|done]. by destruct (_ >? 0).
  - intros a Hinit. unfold PruthiAugmenter.init in Hinit.
    apply Augmenter_init_inv in Hinit as (_ & -> & _). cbn. split.
    + set_solver.
    + intros k Hk.
      repeat (apply elem_of_cons in Hk as [Hk|Hk];
              [by (discriminate Hk || injection Hk as ->)|]).
      by apply elem_of_nil in Hk.
Qed.

Lemma pruthi_budget_is_not_validated_witness :
  exists a,
    PruthiAugmenter.init Worlds.online (Some (-3)) (Kwargs None None) = Py.Ok a /\
    MaxWordsPerturbed (-3) ∈ constraints_of a.
Proof.
  eexists. split; [reflexivity|].
  eapply (pruthi_budget_is_not_validated Worlds.online (Some (-3)) None
            (Kwargs None None)).
  reflexivity.
Defined.

(** X7. [use_all_transformations] of [DeepWordBugAugmenter] changes the
    transformation and nothing else: leaving it out is the same as
    passing True, construction succeeds for one value exactly when it
    does for the other, the constraints and the two overrides are the
    same, and the single transformation used for False is one of the
    children of the composite used for True. *)
Theorem deep_word_bug_flag_only_changes_transformation (env : Env) (kw : kwargs) :
  DeepWordBugAugmenter.init env None kw = DeepWordBugAugmenter.init env (Some true) kw /\
  Py.is_Ok (DeepWordBugAugmenter.init env (Some true) kw) =
    Py.is_Ok (DeepWordBugAugmenter.init env (Some false) kw) /\
  (forall a_all a_one,
      DeepWordBugAugmenter.init env (Some true) kw = Py.Ok a_all ->
      DeepWordBugAugmenter.init env (Some false) kw = Py.Ok a_one ->
      constraints_of a_all = constraints_of a_one /\
      pct_words_to_swap a_all = pct_words_to_swap a_one /\
      transformations_per_example a_all = transformations_per_example a_one /\
      exists children,
        transformation_of a_all = CompositeTransformation children /\
        In (transformation_of a_one) children).
Proof.
  split; [reflexivity|]. split.
  - unfold DeepWordBugAugmenter.init, Augmenter_init.
    destruct (pct_in_range _); [|done]. by destruct (_ >? 0).
  - intros a_all a_one Hall Hone.
    unfold DeepWordBugAugmenter.init in Hall, Hone. cbn in Hall, Hone.
    apply Augmenter_init_inv in Hall as (-> & -> & -> & -> & _).
    apply Augmenter_init_inv in Hone as (-> & -> & -> & -> & _).
    repeat split. eexists. split; [reflexivity|]. cbn. auto.
Qed.

Lemma deep_word_bug_flag_only_changes_transformation_witness :
  exists a_all a_one,
    DeepWordBugAugmenter.init Worlds.online (Some true) (Kwargs None None) = Py.Ok a_all /\
    DeepWordBugAugmenter.init Worlds.online (Some false) (Kwargs None None) = Py.Ok a_one /\
    constraints_of a_all = constraints_of a_one.
Proof.
  eexists _, _. split; [reflexivity|]. split; [reflexivity|].
  eapply (deep_word_bug_flag_only_changes_transformation Worlds.online
            (Kwargs None None)); reflexivity.
Defined.



(** ** The catalog as a whole *)

Lemma construct_inv env r kw a :
  construct env r kw = Py.Ok (AugmenterObject a) ->
  exists t cs, Augmenter_init env t cs kw = Py.Ok a /\
    (forall env' kw' a',
        construct env' r kw' = Py.Ok (AugmenterObject a') ->
        constraints_of a' = default [] cs /\
        ((forall model tokenizer, r <> CLARE model tokenizer) ->
         transformation_of a' = t)).
Proof.
  intros Hc.
  destruct r as [ | | | | | | | |m t| | | | | ]; cbn [construct] in Hc;
    try (apply fmap_AugmenterObject_inv in Hc; unfold_recipes; cbn in Hc;
         eexists _, _; split; [exact Hc|];
         intros env' kw' a' Hc'; cbn [construct] in Hc';
         apply fmap_AugmenterObject_inv in Hc'; unfold_recipes; cbn in Hc';
         apply Augmenter_init_inv in Hc' as (-> & -> & _); done).
  - destruct (EasyDataAugmenter.init env kw); discriminate.
  - apply fmap_AugmenterObject_inv in Hc. unfold CLAREAugmenter.init in Hc.
    destruct (AutoModelForCausalLM_from_pretrained _ _); [|discriminate].
    destruct (AutoTokenizer_from_pretrained _ _); [|discriminate].
    cbn in Hc. eexists _, _. split; [exact Hc|].
    intros env' kw' a' Hc'. cbn [construct] in Hc'.
    apply fmap_AugmenterObject_inv in Hc'. unfold CLAREAugmenter.init in Hc'.
    destruct (AutoModelForCausalLM_from_pretrained _ _); [|discriminate].
    destruct (AutoTokenizer_from_pretrained _ _); [|discriminate].
    cbn in Hc'. apply Augmenter_init_inv in Hc' as (_ & -> & _).
    split; [done|]. intros Hne. by destruct (Hne m t).
Qed.

(** X9. Every recipe that ends in the base constructor hands it the
    caller's two overrides untouched: the augmenter built has the
    fraction and the output count in effect for the call.  What the
    recipe configures itself does not depend on them: two constructions
    of the same recipe have the same constraints and, unless the recipe
    is [CLAREAugmenter] (whose transformation holds what was loaded), the
    same transformation, whatever the overrides and the surroundings. *)
Theorem recipes_forward_kwargs
    (env : Env) (r : recipe) (kw : kwargs) (a : Augmenter) :
  construct env r kw = Py.Ok (AugmenterObject a) ->
  pct_words_to_swap a = pct_in_effect env r kw /\
  transformations_per_example a = tpe_in_effect env r kw /\
  (forall env' kw' a',
      construct env' r kw' = Py.Ok (AugmenterObject a') ->
      constraints_of a' = constraints_of a /\
      ((forall model tokenizer, r <> CLARE model tokenizer) ->
       transformation_of a' = transformation_of a)).
Proof.
  intros Hc. destruct (construct_inv _ _ _ _ Hc) as (t & cs & Hinit & Hsame).
  apply Augmenter_init_inv in Hinit as (Ht & Hcs & Hp & Hn & _).
  assert (r <> Easy) as Hr.
  { intros ->. cbn in Hc. destruct (EasyDataAugmenter.init env kw); discriminate. }
  split; [|split].
  - rewrite Hp. unfold pct_in_effect. by destruct r.
  - rewrite Hn. unfold tpe_in_effect. by destruct r.
  - intros env' kw' a' Hc'. rewrite Ht, Hcs. exact (Hsame env' kw' a' Hc').
Qed.

Lemma recipes_forward_kwargs_witness :
  exists a,
    construct Worlds.online TextFooler
      (Kwargs (Some (Py.Finite (1 # 2))) (Some 7)) = Py.Ok (AugmenterObject a) /\
    pct_words_to_swap a = Py.Finite (1 # 2) /\
    transformations_per_example a = 7.
Proof.
  eexists. split; [reflexivity|].
  destruct (recipes_forward_kwargs Worlds.online TextFooler
              (Kwargs (Some (Py.Finite (1 # 2))) (Some 7)) _ eq_refl)
    as (Hp & Hn & _).
  split; [exact Hp|exact Hn].
Defined.


